(** * Aidex backend: the /chat orchestration pipeline

    A shallow embedding of [backend/agents.py] (the prompt templates) and
    of [backend/main.py] (the completion client [call_gemini_api] and the
    [/chat] handler), followed by the properties of the pipeline.

    Python values are a small inductive type; the handler runs in a state
    and exception monad whose state is the process-wide [chat_sessions]
    dictionary together with a log of what the handler did (network posts,
    prompt-builder calls, history appends). *)

From Stdlib Require Import ZArith Floats Ascii String DecimalString.
From stdpp Require Import base tactics option list strings gmap.

Local Set Warnings "-register-all".
Local Open Scope string_scope.
Local Open Scope Z_scope.

(** ** Python values *)

(** The values that flow through the handler: what [response.json()] and
    [json.loads] produce, plus the dictionaries the code builds itself.
    A [str] is the sequence of its characters (its UTF-8 bytes, so one
    character each for ASCII text); a [dict] is an association list in
    insertion order with string keys, each key once. *)
Inductive pyval :=
| PNone
| PBool (b : bool)
| PInt (n : Z)
| PFloat (f : float)
| PStr (s : string)
| PList (l : list pyval)
| PDict (d : list (string * pyval)).

(** The exceptions that can occur.  [OtherError] stands for an exception
    raised by a library (aiohttp, asyncio, json) that derives from
    [Exception] and from none of the classes named here.  The string an
    exception carries says what went wrong; the text that [str(e)] gives
    in the running interpreter is [exc_str] of the environment below. *)
Inductive pyexn :=
| JSONDecodeError (msg : string)
| TypeError (msg : string)
| AttributeError (msg : string)
| KeyError (key : pyval)
| IndexError (msg : string)
| OtherError (cls msg : string).

Inductive result (A : Type) :=
| Ok (a : A)
| Raise (e : pyexn).
Arguments Ok {A} a.
Arguments Raise {A} e.

(** [bool(v)] *)
Definition truthy (v : pyval) : bool :=
  match v with
  | PNone => false
  | PBool b => b
  | PInt n => negb (n =? 0)
  | PFloat f => negb (PrimFloat.eqb f 0%float)
  | PStr s => negb (String.eqb s EmptyString)
  | PList l => match l with [] => false | _ => true end
  | PDict d => match d with [] => false | _ => true end
  end.

Fixpoint assoc (k : string) (d : list (string * pyval)) : option pyval :=
  match d with
  | [] => None
  | (k', v) :: d' => if String.eqb k k' then Some v else assoc k d'
  end.

(** [v.get(k)]: only a dict has the method. *)
Definition py_get (v : pyval) (k : string) : result pyval :=
  match v with
  | PDict d => Ok (default PNone (assoc k d))
  | _ => Raise (AttributeError "get")
  end.

(** [v[0]] *)
Definition getitem0 (v : pyval) : result pyval :=
  match v with
  | PList l => match l with
               | x :: _ => Ok x
               | [] => Raise (IndexError "list index out of range")
               end
  | PStr s => match s with
              | String c _ => Ok (PStr (String c EmptyString))
              | EmptyString => Raise (IndexError "string index out of range")
              end
  | PDict _ => Raise (KeyError (PInt 0))
  | _ => Raise (TypeError "not subscriptable")
  end.

(** [v[k]] for a string key [k] *)
Definition getitem (v : pyval) (k : string) : result pyval :=
  match v with
  | PDict d => match assoc k d with
               | Some x => Ok x
               | None => Raise (KeyError (PStr k))
               end
  | PList _ | PStr _ => Raise (TypeError "indices must be integers")
  | _ => Raise (TypeError "not subscriptable")
  end.

(** [needle in hay] on strings *)
Fixpoint starts_with (p s : string) : bool :=
  match p, s with
  | EmptyString, _ => true
  | String a p', String b s' => if Ascii.eqb a b then starts_with p' s' else false
  | String _ _, EmptyString => false
  end.

Fixpoint str_contains (needle hay : string) : bool :=
  starts_with needle hay ||
  match hay with
  | EmptyString => false
  | String _ hay' => str_contains needle hay'
  end.

Definition is_str (k : string) (v : pyval) : bool :=
  match v with
  | PStr s => String.eqb s k
  | _ => false
  end.

(** [k in v] for a string [k]: substring of a str, element of a list, key
    of a dict; any other operand is not iterable. *)
Definition py_in (k : string) (v : pyval) : result bool :=
  match v with
  | PStr s => Ok (str_contains k s)
  | PList l => Ok (existsb (is_str k) l)
  | PDict d => Ok (bool_decide (is_Some (assoc k d)))
  | _ => Raise (TypeError "argument is not iterable")
  end.

(** [l[-n:]] *)
Definition slice_last {A} (n : nat) (l : list A) : list A :=
  drop (length l - n) l.

(** ** The result monad of the pure Python fragments *)

#[export] Instance result_ret : MRet result := @Ok.
#[export] Instance result_bind : MBind result :=
  fun A B f r => match r with Ok a => f a | Raise e => Raise e end.

(** ** The environment of the process *)

(** One request to the completion service, as [session.post] sends it. *)
Record http_request := { api_url : string; payload : pyval }.

(** What comes back: an exception out of [ClientSession] / [session.post],
    or a response with its status and what [response.json()] and
    [response.text()] give when awaited. *)
Inductive http_outcome :=
| PostRaises (e : pyexn)
| PostResponse (status : Z) (json : result pyval) (text : result string).

(** Everything outside the two source files.
    - [API_KEY]: [os.getenv]'s answer for [GEMINI_API_KEY].
    - [json_loads]: [json.loads] on a [str].
    - [py_format]: the text an f-string inserts for a value that is not a
      [str] (for a [str] it inserts the string itself, see [fmt]).
    - [exc_str]: the text an f-string inserts for a caught exception.
    - [session_post]: the completion service, answering a request in the
      light of the requests posted before it. *)
Record env := {
  API_KEY : option string;
  json_loads : string -> result pyval;
  py_format : pyval -> string;
  exc_str : pyexn -> string;
  session_post : list http_request -> http_request -> http_outcome
}.

Definition fmt (E : env) (v : pyval) : string :=
  match v with
  | PStr s => s
  | _ => py_format E v
  end.

(** [json.loads(v)]: anything but a [str] is a [TypeError]. *)
Definition py_json_loads (E : env) (v : pyval) : result pyval :=
  match v with
  | PStr s => json_loads E s
  | _ => Raise (TypeError "the JSON object must be str, bytes or bytearray")
  end.

(** ** agents.py *)

(** The double quote and the line feed. *)
Definition dq : string := String "034"%char EmptyString.
Definition nl : string := String "010"%char EmptyString.

(** The lines of a triple-quoted literal, put back together. *)
Definition unlines (ls : list string) : string := String.concat nl ls.

(** One turn of a conversation: [{"role": ..., "content": ...}]. *)
Record turn := { role : string; content : pyval }.

Module MedicalGuardAgent.
Definition get_prompt (user_query : string) : string :=
  unlines [
    EmptyString;
    "            You are a classification model for a medical assistant AI. Your task is to determine if the user's query is related to medicine, health, symptoms, or wellness.";
    EmptyString;
    "            Analyze the following user query: " +:+ dq +:+ user_query +:+ dq;
    EmptyString;
    "            Respond with a JSON object containing a single key " +:+ dq +:+ "is_medical" +:+ dq +:+ " which is a boolean.";
    "            - If the query is medical, wellness, or health-related, set " +:+ dq +:+ "is_medical" +:+ dq +:+ " to true.";
    "            - If the query is NOT medical (e.g., asking about math, history, coding, or casual conversation), set " +:+ dq +:+ "is_medical" +:+ dq +:+ " to false.";
    EmptyString;
    "            Examples:";
    "            - Query: " +:+ dq +:+ "I have a headache and a fever." +:+ dq +:+ " -> {" +:+ dq +:+ "is_medical" +:+ dq +:+ ": true}";
    "            - Query: " +:+ dq +:+ "What are the side effects of ibuprofen?" +:+ dq +:+ " -> {" +:+ dq +:+ "is_medical" +:+ dq +:+ ": true}";
    "            - Query: " +:+ dq +:+ "What is the capital of France?" +:+ dq +:+ " -> {" +:+ dq +:+ "is_medical" +:+ dq +:+ ": false}";
    "            - Query: " +:+ dq +:+ "Hello, how are you?" +:+ dq +:+ " -> {" +:+ dq +:+ "is_medical" +:+ dq +:+ ": false}";
    "            - Query: " +:+ dq +:+ "My stomach hurts." +:+ dq +:+ " -> {" +:+ dq +:+ "is_medical" +:+ dq +:+ ": true}";
    "        "
  ].
End MedicalGuardAgent.

Module SymptomAnalysisAgent.
Definition history_line (E : env) (msg : turn) : string :=
  role msg +:+ ": " +:+ fmt E (content msg).

Definition get_prompt (E : env) (user_query : string) (chat_history : list turn) : string :=
  let history_str := unlines (map (history_line E) chat_history) in
  unlines [
    EmptyString;
    "            You are Aidex, a friendly, empathetic, and highly conversational AI medical assistant.";
    "            Your goal is to help the user understand their symptoms better by asking clarifying questions.";
    "            You are NOT a doctor and you MUST NOT provide a diagnosis or prescribe medication.";
    "            Your primary role is to gather information in a caring and chatty manner.";
    EmptyString;
    "            **Your Persona:**";
    "            - Chatty & Conversational: Use natural, flowing language. Avoid robotic responses.";
    "            - Empathetic: Acknowledge the user's feelings (e.g., " +:+ dq +:+ "I'm sorry to hear you're feeling that way," +:+ dq +:+ " " +:+ dq +:+ "That sounds uncomfortable." +:+ dq +:+ ").";
    "            - Inquisitive: Always ask questions to get more details. Never give a final answer without asking for more info first.";
    "            - Safe: Always include a disclaimer that you are not a real doctor and they should consult a healthcare professional.";
    EmptyString;
    "            **Conversation Flow:**";
    "            1. Acknowledge the user's symptom.";
    "            2. Ask at least TWO clarifying questions to understand the symptom better (e.g., " +:+ dq +:+ "When did it start?" +:+ dq +:+ ", " +:+ dq +:+ "Can you describe the pain?" +:+ dq +:+ ", " +:+ dq +:+ "Is there anything that makes it better or worse?" +:+ dq +:+ ").";
    "            3. Keep your responses concise but warm.";
    "            4. End every single response with your safety disclaimer.";
    EmptyString;
    "            **Chat History (for context):**";
    "            " +:+ history_str;
    EmptyString;
    "            **Current User Query:** " +:+ dq +:+ user_query +:+ dq;
    EmptyString;
    "            Now, generate a response based on this query and the history.";
    "        "
  ].
End SymptomAnalysisAgent.

Module LanguageTranslationAgent.
Definition language_map : list (string * string) :=
  [ ("es", "Spanish"); ("hi", "Hindi"); ("fr", "French"); ("de", "German");
    ("zh", "Chinese"); ("ja", "Japanese"); ("ru", "Russian"); ("ar", "Arabic");
    ("te", "Telugu") ].

Fixpoint language_map_get (code : string) (m : list (string * string)) (dflt : string) : string :=
  match m with
  | [] => dflt
  | (k, name) :: m' => if String.eqb code k then name else language_map_get code m' dflt
  end.

(** The f-string that [get_prompt] returns, over its two variables. *)
Definition prompt_text (E : env) (target_language : string) (text_to_translate : pyval) : string :=
  unlines [
    EmptyString;
    "            You are a translation model. Translate the following text into " +:+ target_language +:+ ".";
    "            Do not add any extra commentary or explanation, just provide the direct translation.";
    EmptyString;
    "            Text to translate: " +:+ dq +:+ fmt E text_to_translate +:+ dq;
    "        "
  ].

Definition get_prompt (E : env) (text_to_translate : pyval) (target_language_code : string) : string :=
  let target_language := language_map_get target_language_code language_map "English" in
  prompt_text E target_language text_to_translate.

(** [code in language_map] *)
Definition supported (code : string) : bool :=
  existsb (String.eqb code) (map fst language_map).
End LanguageTranslationAgent.

(** ** main.py: state and effects *)

Inductive agent := MedicalGuard | SymptomAnalysis | LanguageTranslation.

(** What the handler does, in the order it does it: a prompt template is
    called, a request is posted to the completion service, a turn is
    appended to a session's history. *)
Inductive event :=
| EvPrompt (a : agent) (prompt : string)
| EvPost (r : http_request)
| EvAppend (sid : string) (t : turn).

(** The module-level dictionary [chat_sessions] and the log. *)
Record state := {
  chat_sessions : gmap string (list turn);
  log : list event
}.

(** The state when the process starts: [chat_sessions = {}]. *)
Definition initial : state := {| chat_sessions := ∅; log := [] |}.

(** A computation either returns or raises; what it did to the state stays
    done in both cases. *)
Definition M (A : Type) : Type := state -> result A * state.

#[export] Instance M_ret : MRet M := fun A a st => (Ok a, st).
#[export] Instance M_bind : MBind M :=
  fun A B f m st =>
    match m st with
    | (Ok a, st') => f a st'
    | (Raise e, st') => (Raise e, st')
    end.

Definition lift {A} (r : result A) : M A := fun st => (r, st).

Definition tell (ev : event) : M unit :=
  fun st => (Ok tt, {| chat_sessions := chat_sessions st; log := log st ++ [ev] |}).

Definition posts (l : list event) : list http_request :=
  omap (fun ev => match ev with EvPost r => Some r | _ => None end) l.

(** A call of an agent's [get_prompt]: the call is logged, the prompt is
    the value. *)
Definition invoke (a : agent) (prompt : string) : M string :=
  _ ← tell (EvPrompt a prompt); mret prompt.

(** [async with session.post(api_url, json=payload) as response] *)
Definition post (E : env) (r : http_request) : M http_outcome :=
  fun st =>
    (Ok (session_post E (posts (log st)) r),
     {| chat_sessions := chat_sessions st; log := log st ++ [EvPost r] |}).

(** ** main.py: the completion client *)

Definition error_payload (msg : string) : pyval := PDict [("error", PStr msg)].

Definition key_configured (k : option string) : bool :=
  match k with
  | Some s => negb (String.eqb s EmptyString)
  | None => false
  end.

(** The body of [if response.status == 200:]. *)
Definition extract_text (json : result pyval) : result pyval :=
  result ← json;
  candidates ← py_get result "candidates";
  if truthy candidates then
    candidates ← getitem result "candidates";
    candidate ← getitem0 candidates;
    content ← getitem candidate "content";
    parts ← getitem content "parts";
    content_part ← getitem0 parts;
    py_get content_part "text"
  else
    Ok (error_payload "Unexpected response from Gemini API.").

Definition exception_payload (E : env) (e : pyexn) : pyval :=
  error_payload ("An exception occurred while calling Gemini API: " +:+ exc_str E e).

Definition request_payload (prompt : string) (is_json_output : bool) (image_data : option string) : pyval :=
  let parts : list pyval :=
    ([PDict [("text", PStr prompt)]] ++
     (if truthy (from_option PStr PNone image_data)
      then [PDict [("inline_data",
                    PDict [("mime_type", PStr "image/jpeg");
                           ("data", from_option PStr PNone image_data)])]]
      else []))%list in
  PDict ([("contents", PList [PDict [("parts", PList parts)]])] ++
         (if is_json_output
          then [("generationConfig", PDict [("responseMimeType", PStr "application/json")])]
          else []))%list.

Definition call_gemini_api (E : env) (prompt : string) (model : string)
    (is_json_output : bool) (image_data : option string) : M pyval :=
  if negb (key_configured (API_KEY E)) then
    mret (error_payload "GEMINI_API_KEY not found. Make sure it is set in your .env file.")
  else
    let api_url := "https://generativelanguage.googleapis.com/v1beta/models/" +:+ model
                   +:+ ":generateContent?key=" +:+ default EmptyString (API_KEY E) in
    let payload := request_payload prompt is_json_output image_data in
    outcome ← post E {| api_url := api_url; payload := payload |};
    match outcome with
    | PostRaises e => mret (exception_payload E e)
    | PostResponse status json text =>
        if status =? 200 then
          match extract_text json with
          | Ok v => mret v
          | Raise e => mret (exception_payload E e)
          end
        else
          match text with
          | Ok error_text =>
              mret (error_payload ("Failed to get response from Gemini API. Status: "
                                   +:+ py_format E (PInt status)))
          | Raise e => mret (exception_payload E e)
          end
    end.

Definition default_model : string := "gemini-2.0-flash".

(** ** main.py: the /chat handler *)

(** The JSON body of a request, with the three keys the handler reads;
    [None] is an absent key.  The interface types all three as strings. *)
Record request := {
  message : option string;
  session_id : option string;
  language : option string
}.

Definition trouble_reply : string :=
  "I'm sorry, I'm having trouble understanding the nature of your request right now.".

Definition refusal_text : string :=
  "I am an AI medical assistant named Aidex. I can only answer questions related to medical symptoms, health conditions, and wellness. How can I help you with a medical topic?".

Definition reply (v : pyval) : pyval := PDict [("reply", v)].

(** [if session_id not in chat_sessions: chat_sessions[session_id] = []] *)
Definition init_session (sid : string) : M unit :=
  fun st =>
    match chat_sessions st !! sid with
    | Some _ => (Ok tt, st)
    | None => (Ok tt, {| chat_sessions := <[sid := []]> (chat_sessions st); log := log st |})
    end.

(** [chat_sessions[session_id]], read through the name [history]. *)
Definition get_history (sid : string) : M (list turn) :=
  fun st =>
    match chat_sessions st !! sid with
    | Some h => (Ok h, st)
    | None => (Raise (KeyError (PStr sid)), st)
    end.

(** [history.append(t)]: [history] is the very list stored in
    [chat_sessions], so the stored list grows. *)
Definition history_append (sid : string) (t : turn) : M unit :=
  fun st =>
    (Ok tt, {| chat_sessions := alter (fun h : list turn => (h ++ [t])%list) sid (chat_sessions st);
               log := log st ++ [EvAppend sid t] |}).

(** [chat_sessions[session_id] = history[-10:]] *)
Definition trim_history (sid : string) : M unit :=
  fun st =>
    match chat_sessions st !! sid with
    | Some h => (Ok tt, {| chat_sessions := <[sid := slice_last 10 h]> (chat_sessions st);
                           log := log st |})
    | None => (Raise (KeyError (PStr sid)), st)
    end.

(** The handler.  [user_message] is [body.get("message")]: an absent key
    and an empty string are both falsy and take the first branch.  The
    [print] calls of the source write to the server's output only and are
    left out. *)
Definition chat (E : env) (request : request) : M pyval :=
  let user_message := default EmptyString (message request) in
  let session_id := default "default_session" (session_id request) in
  let language := default "en" (language request) in
  if negb (truthy (PStr user_message)) then
    mret (PDict [("error", PStr "Message cannot be empty.")])
  else
    (* Step 1: Call the Medical Guard Agent *)
    guard_prompt ← invoke MedicalGuard (MedicalGuardAgent.get_prompt user_message);
    guard_response_str ← call_gemini_api E guard_prompt default_model true None;
    match py_json_loads E guard_response_str with
    | Raise (JSONDecodeError _) | Raise (TypeError _) =>
        mret (reply (PStr trouble_reply))
    | Raise e => lift (Raise e)
    | Ok guard_response =>
        is_medical ← lift (py_get guard_response "is_medical");
        if negb (truthy is_medical) then
          (* If the query is not medical, return a polite refusal *)
          if negb (String.eqb language "en") then
            prompt ← invoke LanguageTranslation
                       (LanguageTranslationAgent.get_prompt E (PStr refusal_text) language);
            refusal_message ← call_gemini_api E prompt default_model false None;
            mret (reply refusal_message)
          else
            mret (reply (PStr refusal_text))
        else
          (* Step 2: If medical, proceed to the Symptom Analysis Agent *)
          _ ← init_session session_id;
          history ← get_history session_id;
          analysis_prompt ← invoke SymptomAnalysis
                              (SymptomAnalysisAgent.get_prompt E user_message history);
          ai_response ← call_gemini_api E analysis_prompt "gemini-2.5-pro" false None;
          (* Update chat history *)
          _ ← history_append session_id {| role := "user"; content := PStr user_message |};
          _ ← history_append session_id {| role := "assistant"; content := ai_response |};
          _ ← trim_history session_id;
          (* Step 3: Translate the response if the user's language is not English *)
          if negb (String.eqb language "en") && negb (String.eqb language "en-US") then
            translation_prompt ← invoke LanguageTranslation
                                   (LanguageTranslationAgent.get_prompt E ai_response language);
            translated_text ← call_gemini_api E translation_prompt default_model false None;
            has_error ← lift (py_in "error" translated_text);
            if negb has_error then mret (reply translated_text)
            else mret (reply ai_response)
          else
            mret (reply ai_response)
    end.

(** Requests handled one after the other, none overlapping the next.  A
    request whose handler raises is answered with an error by the server,
    which then goes on with the next one. *)
Fixpoint serve (E : env) (rs : list request) (st : state) : list (result pyval) * state :=
  match rs with
  | [] => ([], st)
  | r :: rs' =>
      let '(out, st') := chat E r st in
      let '(outs, st'') := serve E rs' st' in
      (out :: outs, st'')
  end.

(** ** A concrete environment

    The properties below hold for every environment.  To run the handler
    on concrete requests one environment is fixed here: a decoder and a
    formatter that agree with CPython on a fragment (integers but no
    floats, string escapes but no [\u], ASCII text), and a completion
    service that answers from a script.  The decoder raises [Unsupported]
    exactly where the document holds a float (a number with a fraction or
    an exponent, [NaN], [Infinity]) or a [\u] escape; no example relies
    on it. *)

Module Json.

Definition unsupported {A} : result A := Raise (OtherError "Unsupported" "outside the fragment").

Definition is_ws (c : ascii) : bool :=
  Ascii.eqb c " " || Ascii.eqb c "009" || Ascii.eqb c "010" || Ascii.eqb c "013".

Fixpoint skip_ws (s : string) : string :=
  match s with
  | String c s' => if is_ws c then skip_ws s' else s
  | EmptyString => s
  end.

Fixpoint strip_prefix (p s : string) : option string :=
  match p, s with
  | EmptyString, _ => Some s
  | String a p', String b s' => if Ascii.eqb a b then strip_prefix p' s' else None
  | String _ _, EmptyString => None
  end.

Definition escape (c : ascii) : option ascii :=
  if Ascii.eqb c "034" then Some "034"%char
  else if Ascii.eqb c "092" then Some "092"%char
  else if Ascii.eqb c "/" then Some "/"%char
  else if Ascii.eqb c "b" then Some "008"%char
  else if Ascii.eqb c "f" then Some "012"%char
  else if Ascii.eqb c "n" then Some "010"%char
  else if Ascii.eqb c "r" then Some "013"%char
  else if Ascii.eqb c "t" then Some "009"%char
  else None.

(** The characters of a string literal after its opening quote. *)
Fixpoint scan_string (s : string) : result (string * string) :=
  match s with
  | EmptyString => Raise (JSONDecodeError "Unterminated string")
  | String c s' =>
      if Ascii.eqb c "034" then Ok (EmptyString, s')
      else if Ascii.eqb c "092" then
        match s' with
        | EmptyString => Raise (JSONDecodeError "Unterminated string")
        | String e s'' =>
            match escape e with
            | Some ch => r ← scan_string s''; Ok (String ch r.1, r.2)
            | None => if Ascii.eqb e "u" then unsupported
                      else Raise (JSONDecodeError "Invalid \escape")
            end
        end
      else if (nat_of_ascii c <? 32)%nat then Raise (JSONDecodeError "Invalid control character")
      else r ← scan_string s'; Ok (String c r.1, r.2)
  end.

Definition digit (c : ascii) : option Z :=
  let n := nat_of_ascii c in
  if (48 <=? n)%nat && (n <=? 57)%nat then Some (Z.of_nat n - 48) else None.

Fixpoint scan_digits (s : string) (acc : Z) : Z * string :=
  match s with
  | String c s' => match digit c with
                   | Some d => scan_digits s' (10 * acc + d)
                   | None => (acc, s)
                   end
  | EmptyString => (acc, s)
  end.

Definition starts_with_digit (s : string) : bool :=
  match s with
  | String c _ => match digit c with Some _ => true | None => false end
  | EmptyString => false
  end.

(** What follows the integer part makes the number a float: a point and a
    digit, or an exponent mark, an optional sign and a digit. *)
Definition float_tail (s : string) : bool :=
  match s with
  | String c s' =>
      if Ascii.eqb c "." then starts_with_digit s'
      else if Ascii.eqb c "e" || Ascii.eqb c "E" then
        match s' with
        | String sign s'' =>
            if Ascii.eqb sign "+" || Ascii.eqb sign "-" then starts_with_digit s''
            else starts_with_digit s'
        | EmptyString => false
        end
      else false
  | EmptyString => false
  end.

(** An integer: [0] or a non-zero digit and more digits.  With a fraction
    or an exponent after it the number is a float. *)
Definition scan_int (s : string) : result (Z * string) :=
  match s with
  | String c s' =>
      match digit c with
      | Some d =>
          let '(n, rest) := if d =? 0 then (0, s') else scan_digits s' d in
          if float_tail rest then unsupported else Ok (n, rest)
      | None => Raise (JSONDecodeError "Expecting value")
      end
  | EmptyString => Raise (JSONDecodeError "Expecting value")
  end.

(** [d[k] = v] *)
Fixpoint dict_set (k : string) (v : pyval) (d : list (string * pyval)) : list (string * pyval) :=
  match d with
  | [] => [(k, v)]
  | (k', v') :: d' => if String.eqb k k' then (k', v) :: d' else (k', v') :: dict_set k v d'
  end.

Fixpoint parse_value (fuel : nat) (s : string) : result (pyval * string) :=
  match fuel with
  | O => unsupported
  | S fuel =>
      match skip_ws s with
      | EmptyString => Raise (JSONDecodeError "Expecting value")
      | String c rest =>
          if Ascii.eqb c "{" then
            match skip_ws rest with
            | String c' rest' =>
                if Ascii.eqb c' "}" then Ok (PDict [], rest')
                else parse_members fuel (skip_ws rest) []
            | EmptyString => Raise (JSONDecodeError "Expecting property name")
            end
          else if Ascii.eqb c "[" then
            match skip_ws rest with
            | String c' rest' =>
                if Ascii.eqb c' "]" then Ok (PList [], rest')
                else parse_elements fuel rest []
            | EmptyString => Raise (JSONDecodeError "Expecting value")
            end
          else if Ascii.eqb c "034" then
            r ← scan_string rest; Ok (PStr r.1, r.2)
          else if Ascii.eqb c "-" then
            if starts_with_digit rest then r ← scan_int rest; Ok (PInt (- r.1), r.2)
            else if starts_with "Infinity" rest then unsupported
            else Raise (JSONDecodeError "Expecting value")
          else if starts_with "NaN" (String c rest) || starts_with "Infinity" (String c rest)
          then unsupported
          else
            match strip_prefix "null" (String c rest),
                  strip_prefix "true" (String c rest),
                  strip_prefix "false" (String c rest) with
            | Some r, _, _ => Ok (PNone, r)
            | _, Some r, _ => Ok (PBool true, r)
            | _, _, Some r => Ok (PBool false, r)
            | _, _, _ => r ← scan_int (String c rest); Ok (PInt r.1, r.2)
            end
      end
  end
with parse_elements (fuel : nat) (s : string) (acc : list pyval) : result (pyval * string) :=
  match fuel with
  | O => unsupported
  | S fuel =>
      r ← parse_value fuel s;
      match skip_ws r.2 with
      | String c rest =>
          if Ascii.eqb c "," then parse_elements fuel rest (acc ++ [r.1])
          else if Ascii.eqb c "]" then Ok (PList (acc ++ [r.1]), rest)
          else Raise (JSONDecodeError "Expecting ',' delimiter")
      | EmptyString => Raise (JSONDecodeError "Expecting ',' delimiter")
      end
  end
with parse_members (fuel : nat) (s : string) (acc : list (string * pyval)) : result (pyval * string) :=
  match fuel with
  | O => unsupported
  | S fuel =>
      match s with
      | String q s1 =>
          if Ascii.eqb q "034" then
            k ← scan_string s1;
            match skip_ws k.2 with
            | String colon s2 =>
                if Ascii.eqb colon ":" then
                  r ← parse_value fuel s2;
                  match skip_ws r.2 with
                  | String c rest =>
                      if Ascii.eqb c "," then parse_members fuel (skip_ws rest) (dict_set k.1 r.1 acc)
                      else if Ascii.eqb c "}" then Ok (PDict (dict_set k.1 r.1 acc), rest)
                      else Raise (JSONDecodeError "Expecting ',' delimiter")
                  | EmptyString => Raise (JSONDecodeError "Expecting ',' delimiter")
                  end
                else Raise (JSONDecodeError "Expecting ':' delimiter")
            | EmptyString => Raise (JSONDecodeError "Expecting ':' delimiter")
            end
          else Raise (JSONDecodeError "Expecting property name enclosed in double quotes")
      | EmptyString => Raise (JSONDecodeError "Expecting property name enclosed in double quotes")
      end
  end.

(** [json.loads] on the fragment: one value, then only white space. *)
Definition loads (s : string) : result pyval :=
  r ← parse_value (2 * String.length s + 2) s;
  match skip_ws r.2 with
  | EmptyString => Ok r.1
  | String _ _ => Raise (JSONDecodeError "Extra data")
  end.

End Json.

Module Sample.

Definition decimal (n : Z) : string := NilZero.string_of_int (Z.to_int n).

Definition hex_digit (n : nat) : ascii :=
  ascii_of_nat (if (n <? 10)%nat then 48 + n else 87 + n).

(** One character inside the quotes of [repr(s)]. *)
Definition repr_char (quote : ascii) (c : ascii) : string :=
  let n := nat_of_ascii c in
  let bs := String "092"%char EmptyString in
  if Ascii.eqb c "092" then bs +:+ bs
  else if Ascii.eqb c quote then bs +:+ String c EmptyString
  else if Ascii.eqb c "009" then bs +:+ "t"
  else if Ascii.eqb c "010" then bs +:+ "n"
  else if Ascii.eqb c "013" then bs +:+ "r"
  else if (n <? 32)%nat || (n =? 127)%nat then
    bs +:+ "x" +:+ String (hex_digit (n / 16)) (String (hex_digit (n mod 16)) EmptyString)
  else String c EmptyString.

Fixpoint repr_chars (quote : ascii) (s : string) : string :=
  match s with
  | EmptyString => EmptyString
  | String c s' => repr_char quote c +:+ repr_chars quote s'
  end.

(** [repr(s)]: single quotes, unless the string has one and no double quote. *)
Definition repr_str (s : string) : string :=
  let sq := "'"%char in
  let quote := if str_contains (String sq EmptyString) s && negb (str_contains dq s)
               then "034"%char else sq in
  String quote EmptyString +:+ repr_chars quote s +:+ String quote EmptyString.

Definition join (sep : string) (ls : list string) : string := String.concat sep ls.

Fixpoint repr (v : pyval) : string :=
  match v with
  | PNone => "None"
  | PBool true => "True"
  | PBool false => "False"
  | PInt n => decimal n
  | PFloat _ => "<float>"
  | PStr s => repr_str s
  | PList l => "[" +:+ join ", " (map repr l) +:+ "]"
  | PDict d => "{" +:+ join ", " (map (fun kv => repr_str kv.1 +:+ ": " +:+ repr kv.2) d) +:+ "}"
  end.

Definition exc_text (e : pyexn) : string :=
  match e with
  | JSONDecodeError msg | TypeError msg | AttributeError msg | IndexError msg => msg
  | KeyError k => repr k
  | OtherError _ msg => msg
  end.

(** A completion service that answers its n-th request with the n-th entry
    of a script, and refuses the connection once the script is over. *)
Definition scripted (script : list http_outcome)
    (earlier : list http_request) (r : http_request) : http_outcome :=
  nth (length earlier) script
      (PostRaises (OtherError "ClientConnectorError" "Cannot connect to host")).

(** A well-formed answer of the service carrying [text]. *)
Definition answer (text : string) : http_outcome :=
  PostResponse 200
    (Ok (PDict [("candidates",
                 PList [PDict [("content",
                                PDict [("parts", PList [PDict [("text", PStr text)]])])]])]))
    (Ok EmptyString).

Definition make (key : option string) (script : list http_outcome) : env :=
  {| API_KEY := key;
     json_loads := Json.loads;
     py_format := repr;
     exc_str := exc_text;
     session_post := scripted script |}.

Definition medical : string := "{" +:+ dq +:+ "is_medical" +:+ dq +:+ ": true}".
Definition not_medical : string := "{" +:+ dq +:+ "is_medical" +:+ dq +:+ ": false}".

End Sample.


(** ** The stages of the handler, named

    [chat] is one function in the source.  To speak about what one of its
    upstream calls returned, the three calls are named here, each with the
    statements that lead to it; [chat] is related to them by the lemmas of
    the next part. *)

(** Lines 126-127: the gate prompt and its completion. *)
Definition gate_call (E : env) (user_message : string) : M pyval :=
  guard_prompt ← invoke MedicalGuard (MedicalGuardAgent.get_prompt user_message);
  call_gemini_api E guard_prompt default_model true None.

(** Lines 146-151: the session is created if need be, its history goes
    into the analysis prompt, the prompt is completed. *)
Definition analysis_call (E : env) (user_message session_id : string) : M pyval :=
  _ ← init_session session_id;
  history ← get_history session_id;
  analysis_prompt ← invoke SymptomAnalysis
                      (SymptomAnalysisAgent.get_prompt E user_message history);
  call_gemini_api E analysis_prompt "gemini-2.5-pro" false None.

(** Lines 154-157: both turns are appended and the history is cut. *)
Definition record_exchange (user_message session_id : string) (ai_response : pyval) : M unit :=
  _ ← history_append session_id {| role := "user"; content := PStr user_message |};
  _ ← history_append session_id {| role := "assistant"; content := ai_response |};
  trim_history session_id.

(** Lines 140 and 162-163: the translation prompt and its completion. *)
Definition translation_call (E : env) (text : pyval) (language : string) : M pyval :=
  prompt ← invoke LanguageTranslation (LanguageTranslationAgent.get_prompt E text language);
  call_gemini_api E prompt default_model false None.

(** The request that [call_gemini_api] posts. *)
Definition request_of (E : env) (prompt model : string) (is_json_output : bool)
    (image_data : option string) : http_request :=
  {| api_url := "https://generativelanguage.googleapis.com/v1beta/models/" +:+ model
                +:+ ":generateContent?key=" +:+ default EmptyString (API_KEY E);
     payload := request_payload prompt is_json_output image_data |}.

(** What one call of [call_gemini_api] adds to the log. *)
Definition posted (E : env) (prompt model : string) (is_json_output : bool)
    (image_data : option string) : list event :=
  if key_configured (API_KEY E)
  then [EvPost (request_of E prompt model is_json_output image_data)] else [].

(** The message of the client when no key is configured. *)
Definition missing_key_message : string :=
  "GEMINI_API_KEY not found. Make sure it is set in your .env file.".

(** The two turns of an exchange. *)
Definition user_turn (user_message : string) : turn :=
  {| role := "user"; content := PStr user_message |}.
Definition assistant_turn (ai_response : pyval) : turn :=
  {| role := "assistant"; content := ai_response |}.

(** The session table once [session_id] has been referred to. *)
Definition with_session (sid : string) (m : gmap string (list turn)) : gmap string (list turn) :=
  match m !! sid with
  | Some _ => m
  | None => <[sid := []]> m
  end.

(** The state with more events in its log. *)
Definition extend (st : state) (l : list event) : state :=
  {| chat_sessions := chat_sessions st; log := log st ++ l |}.

(** An error dict of the completion client. *)
Definition is_error_payload (v : pyval) : Prop := exists msg, v = error_payload msg.

(** The gate's completion cannot be decoded: [json.loads] raises one of
    the two exceptions the handler catches. *)
Definition gate_unreadable (E : env) (v : pyval) : Prop :=
  (exists msg, py_json_loads E v = Raise (JSONDecodeError msg)) \/
  (exists msg, py_json_loads E v = Raise (TypeError msg)).

(** The turns appended to one session, oldest first. *)
Definition appended (sid : string) (l : list event) : list turn :=
  omap (fun ev => match ev with
                  | EvAppend sid' t => if String.eqb sid' sid then Some t else None
                  | _ => None
                  end) l.

(** The prompts that one agent built, oldest first. *)
Definition agent_eqb (a b : agent) : bool :=
  match a, b with
  | MedicalGuard, MedicalGuard | SymptomAnalysis, SymptomAnalysis
  | LanguageTranslation, LanguageTranslation => true
  | _, _ => false
  end.

Definition prompts_of (a : agent) (l : list event) : list string :=
  omap (fun ev => match ev with
                  | EvPrompt a' p => if agent_eqb a' a then Some p else None
                  | _ => None
                  end) l.

(** The stored history of a session; a session never referred to has none. *)
Definition stored (st : state) (sid : string) : list turn :=
  default [] (chat_sessions st !! sid).

(** An exchange is a user message and the assistant's answer to it. *)
Definition exchange_turns (x : string * pyval) : list turn :=
  [ {| role := "user"; content := PStr x.1 |};
    {| role := "assistant"; content := x.2 |} ].

Definition turns_of (xs : list (string * pyval)) : list turn :=
  concat (map exchange_turns xs).

(** The fields of a request as the handler reads them. *)
Definition message_of (r : request) : string := default EmptyString (message r).
Definition session_of (r : request) : string := default "default_session" (session_id r).
Definition language_of (r : request) : string := default "en" (language r).

(** Every stored history is the newest ten of the turns appended to its
    session, and those turns are whole exchanges. *)
Definition histories_ok (st : state) : Prop :=
  forall sid,
    stored st sid = slice_last 10 (appended sid (log st)) /\
    exists xs, appended sid (log st) = turns_of xs.


(** ** Scenarios

    The requests and the completion services of the examples. *)

Module Scenario.
Import Sample.

Definition ask (text lang : string) : request :=
  {| message := Some text; session_id := Some "s1"; language := Some lang |}.

(** An answer of the service with a status other than 200. *)
Definition failure (status : Z) : http_outcome :=
  PostResponse status
    (Raise (OtherError "ContentTypeError" "unexpected mimetype"))
    (Ok "upstream failure").

(** An answer of the service whose first part carries no text. *)
Definition textless : http_outcome :=
  PostResponse 200
    (Ok (PDict [("candidates",
                 PList [PDict [("content",
                                PDict [("parts", PList [PDict [("functionCall", PDict [])]])])]])]))
    (Ok EmptyString).

(** The requests: a headache reported in English and in Italian (a code
    outside the enumeration); a sum asked for in English, in American
    English and in Spanish. *)
Definition headache : request := ask "I have a headache" "en".
Definition headache_it : request := ask "I have a headache" "it".
Definition sum : request := ask "What's 2+2?" "en".
Definition sum_en_US : request := ask "What's 2+2?" "en-US".
Definition sum_es : request := ask "What's 2+2?" "es".

(** A process started without a key. *)
Definition keyless : env := make None [].

(** Services that fail at the gate: one that is down, one whose classifier
    answers with the empty JSON object, one whose classifier answers with
    prose. *)
Definition down : env := make (Some "secret") [failure 500].
Definition vague : env := make (Some "secret") [answer "{}"].
Definition chatty : env := make (Some "secret") [answer "certainly!"].

(** Services that classify a request as not medical: one that stops there,
    one that answers a second request, one that fails on it. *)
Definition strict : env := make (Some "secret") [answer not_medical].
Definition obliging : env :=
  make (Some "secret") [answer not_medical; answer "I only answer medical questions."].
Definition failing_translator : env :=
  make (Some "secret") [answer not_medical; failure 503].

(** Services that classify a request as medical: one that fails on the
    analysis, one that answers the analysis and the translation, one whose
    translation carries no text. *)
Definition failing_analyst : env := make (Some "secret") [answer medical; failure 500].
Definition polyglot : env :=
  make (Some "secret") [answer medical; answer "Please rest."; answer "Do rest, please."].
Definition mute_translator : env :=
  make (Some "secret") [answer medical; answer "Please rest."; textless].

(** A service that classifies and answers six requests in a row, and the
    state after the first five. *)
Definition six_rounds : list http_outcome :=
  [ answer medical; answer "Answer 1"; answer medical; answer "Answer 2";
    answer medical; answer "Answer 3"; answer medical; answer "Answer 4";
    answer medical; answer "Answer 5"; answer medical; answer "Answer 6" ].

Definition patient : env := make (Some "secret") six_rounds.

Definition after_five : state := (serve patient (replicate 5 headache) initial).2.

End Scenario.

(** ** agents.py and main.py: the rest

    The fourth prompt template, the root endpoint and the video endpoint. *)

Module VisualAnalysisAgent.
Definition get_prompt (user_prompt : string) : string :=
  unlines [
    EmptyString;
    "            You are an AI medical assistant with advanced visual analysis capabilities.";
    "            You will be given an image from a user's webcam and a text prompt.";
    "            Your task is to analyze the image based on the prompt.";
    EmptyString;
    "            **Guidelines:**";
    "            - Be descriptive and objective. Describe what you see in the image.";
    "            - If asked about emotions, describe facial expressions (e.g., " +:+ dq +:+ "The user appears to be smiling," +:+ dq +:+ " " +:+ dq +:+ "The user's brow is furrowed, which might suggest concern." +:+ dq +:+ ").";
    "            - If asked about a physical symptom (like a rash or swelling), describe its appearance (e.g., " +:+ dq +:+ "I can see a red, patchy area on the skin," +:+ dq +:+ " " +:+ dq +:+ "There appears to be some swelling around the joint." +:+ dq +:+ ").";
    "            - **Crucially, do not diagnose.** You can describe what you see, but you must state that a visual analysis is not a substitute for a professional medical examination.";
    "            - Always end with a safety disclaimer.";
    EmptyString;
    "            **User's Request:** " +:+ dq +:+ user_prompt +:+ dq;
    EmptyString;
    "            Analyze the provided image based on this request.";
    "        "
  ].
End VisualAnalysisAgent.

(** [GET /] *)
Definition read_root : pyval :=
  PDict [("message", PStr "Welcome to the Aidex AI Backend. We are ready to assist.")].

Module Video.

(** The JSON object of one inbound message, with the two keys the handler
    reads; [None] is an absent key.  The interface types both as strings. *)
Record frame := { image : option string; prompt : option string }.

(** What the socket raises: the peer has gone, or anything else. *)
Inductive ws_exn :=
| WebSocketDisconnect
| WsException (e : pyexn).

(** One turn of the peer: [receive_json] returns a message, together with
    what [send_json] raises should the handler answer it ([None]: the
    answer goes out); or [receive_json] raises. *)
Inductive inbound :=
| Received (data : frame) (send : option ws_exn)
| ReceiveRaises (x : ws_exn).

(** A connection: what [accept] raises, the turns of the peer, what
    [close] raises. *)
Record peer := {
  accept : option ws_exn;
  turns : list inbound;
  close : option ws_exn
}.

(** How the [while True] loop stands once the turns of the peer are used
    up: suspended in [receive_json], or left by an exception. *)
Inductive loop_exit :=
| Blocked
| LoopRaises (x : ws_exn).

(** How the handler stands: still serving, returned after a disconnect,
    returned after closing the socket, or left by an exception of its
    own. *)
Inductive outcome :=
| Serving
| Disconnected
| Closed (code : Z) (reason : string)
| Propagated (x : ws_exn).

Definition default_prompt : string := "Analyze the user's visual state and emotion.".

(** The body of the [try]: the messages sent, oldest first, and the way
    the loop was left. *)
Fixpoint loop (E : env) (frames : list inbound) : M (list pyval * loop_exit) :=
  match frames with
  | [] => mret ([], Blocked)
  | ReceiveRaises x :: _ => mret ([], LoopRaises x)
  | Received data send :: frames' =>
      let image_data := image data in
      let prompt_text := default default_prompt (prompt data) in
      if negb (truthy (from_option PStr PNone image_data)) then
        loop E frames'
      else
        let analysis_prompt := VisualAnalysisAgent.get_prompt prompt_text in
        visual_analysis_response ←
          call_gemini_api E analysis_prompt "gemini-2.5-pro" false image_data;
        match send with
        | Some x => mret ([], LoopRaises x)
        | None =>
            rest ← loop E frames';
            mret (PDict [("analysis", visual_analysis_response)] :: rest.1, rest.2)
        end
  end.

Definition websocket_video_endpoint (E : env) (p : peer) : M (list pyval * outcome) :=
  match accept p with
  | Some x => mret ([], Propagated x)
  | None =>
      r ← loop E (turns p);
      match r.2 with
      | Blocked => mret (r.1, Serving)
      | LoopRaises WebSocketDisconnect => mret (r.1, Disconnected)
      | LoopRaises (WsException e) =>
          match close p with
          | Some x => mret (r.1, Propagated x)
          | None => mret (r.1, Closed 1011 ("An internal error occurred: " +:+ exc_str E e))
          end
      end
  end.

(** A message of the peer that the loop answers: its image is there and
    not empty. *)
Definition has_image (data : frame) : bool :=
  truthy (from_option PStr PNone (image data)).

(** A turn of the peer that the loop passes over. *)
Definition skipped (i : inbound) : bool :=
  match i with
  | Received data _ => negb (has_image data)
  | ReceiveRaises _ => false
  end.

(** The request the handler posts for one message. *)
Definition request_for (E : env) (data : frame) : http_request :=
  request_of E (VisualAnalysisAgent.get_prompt (default default_prompt (prompt data)))
             "gemini-2.5-pro" false (image data).

End Video.

(** The state once the video loop has called the client for these
    messages of the peer: with a key their requests are posted, in this
    order; without one nothing is. *)
Definition video_state (E : env) (st : state) (answered : list Video.frame) : state :=
  extend st (map EvPost (if key_configured (API_KEY E)
                         then map (Video.request_for E) answered else [])).

(** What the client returns for one message of the peer, called in the
    state [st] with the visual prompt of the message and its image. *)
Definition video_analysis (E : env) (st : state) (data : Video.frame) : result pyval :=
  (call_gemini_api E
     (VisualAnalysisAgent.get_prompt (default Video.default_prompt (Video.prompt data)))
     "gemini-2.5-pro" false (Video.image data) st).1.

(** The message that tells a video peer that no key is configured. *)
Definition missing_key_analysis : pyval :=
  PDict [("analysis", error_payload missing_key_message)].

(** A turn of the peer on which the video loop meets the exception [x]:
    receiving raises it, or sending the answer to an image does. *)
Definition raised_by (x : Video.ws_exn) (i : Video.inbound) : Prop :=
  i = Video.ReceiveRaises x \/
  exists data, Video.has_image data = true /\ i = Video.Received data (Some x).

(** ** More scenarios *)

Module Cases.
Import Sample.

(** An answer of the service with two candidates, the first of two parts,
    and a field beside the candidates. *)
Definition rich_body : pyval :=
  PDict [("usageMetadata", PDict [("totalTokenCount", PInt 7)]);
         ("candidates",
          PList [PDict [("content",
                         PDict [("role", PStr "model");
                                ("parts", PList [PDict [("text", PStr "first part")];
                                                 PDict [("text", PStr "second part")]])]);
                        ("finishReason", PStr "STOP")];
                 PDict [("content",
                         PDict [("parts", PList [PDict [("text", PStr "other candidate")]])])]])].

Definition rich : env := make (Some "secret") [PostResponse 200 (Ok rich_body) (Ok EmptyString)].

(** Requests without a message. *)
Definition silent : request :=
  {| message := None; session_id := Some "s1"; language := Some "en" |}.
Definition blank : request :=
  {| message := Some EmptyString; session_id := None; language := None |}.

(** A service whose classifier answers with a JSON list. *)
Definition listing : env := make (Some "secret") [answer "[true]"].

(** The headache reported in Spanish, and a service whose translation has
    the word "error" in it. *)
Definition headache_es : request := Scenario.ask "I have a headache" "es".

Definition worried : env :=
  make (Some "secret") [answer medical; answer "Please rest.";
                        answer "Puede ser un error de medicacion."].

(** The same request served by a translator without text. *)
Definition mute : env :=
  make (Some "secret") [answer medical; answer "Please rest."; Scenario.textless].

(** Messages of a video peer: with an image, with an image and a prompt,
    without an image, with an empty image. *)
Definition snapshot : Video.frame := {| Video.image := Some "aGVsbG8="; Video.prompt := None |}.
Definition rash : Video.frame :=
  {| Video.image := Some "cmFzaA=="; Video.prompt := Some "Is this a rash?" |}.
Definition no_image : Video.frame := {| Video.image := None; Video.prompt := Some "Hello?" |}.
Definition empty_image : Video.frame := {| Video.image := Some EmptyString; Video.prompt := None |}.

(** A peer that sends four messages and stays connected, and a service
    that describes two images. *)
Definition viewer : Video.peer :=
  {| Video.accept := None;
     Video.turns := [Video.Received no_image None; Video.Received snapshot None;
                     Video.Received empty_image None; Video.Received rash None];
     Video.close := None |}.

Definition describer : env :=
  make (Some "secret") [answer "You look calm."; answer "A red patch."].

(** A peer that sends an image and then something that is not JSON. *)
Definition garbler : Video.peer :=
  {| Video.accept := None;
     Video.turns := [Video.Received snapshot None;
                     Video.ReceiveRaises
                       (Video.WsException (JSONDecodeError "Expecting value"))];
     Video.close := None |}.

(** Two patients, each with a session of their own, and a service that
    classifies and answers both. *)
Definition first_patient : request :=
  {| message := Some "I have a headache"; session_id := Some "s1"; language := Some "en" |}.
Definition second_patient : request :=
  {| message := Some "My knee hurts"; session_id := Some "s2"; language := Some "en" |}.

Definition two_rounds : env :=
  make (Some "secret") [answer medical; answer "Answer 1"; answer medical; answer "Answer 2"].

(** The state after the first patient has been served. *)
Definition after_first : state := (chat two_rounds first_patient initial).2.

End Cases.

(** * Properties *)

Local Open Scope nat_scope.
Local Open Scope list_scope.

(** The prompts are long literals; the proofs never look inside them. *)
#[local] Opaque MedicalGuardAgent.get_prompt SymptomAnalysisAgent.get_prompt
  LanguageTranslationAgent.prompt_text request_payload.
#[local] Arguments String.append : simpl never.

Ltac unfold_monad :=
  unfold invoke in *;
  unfold mbind, M_bind, mret, M_ret, tell, lift, post in *;
  cbv beta iota in *.

(** ** The concrete environment at work *)

Example loads_flag : Json.loads Sample.medical = Ok (PDict [("is_medical", PBool true)]).
Proof. reflexivity. Qed.

Example loads_nested :
  Json.loads (" [1, -20, null, {" +:+ dq +:+ "k" +:+ dq +:+ " : [true , false ]}, {}] ")
  = Ok (PList [PInt 1; PInt (-20); PNone; PDict [("k", PList [PBool true; PBool false])];
               PDict []]).
Proof. reflexivity. Qed.

Example loads_extra_data : Json.loads "01" = Raise (JSONDecodeError "Extra data").
Proof. reflexivity. Qed.

Example loads_prose : Json.loads "certainly!" = Raise (JSONDecodeError "Expecting value").
Proof. reflexivity. Qed.

Example loads_prose_N : Json.loads "No idea." = Raise (JSONDecodeError "Expecting value").
Proof. reflexivity. Qed.

Example loads_prose_I : Json.loads "I think so." = Raise (JSONDecodeError "Expecting value").
Proof. reflexivity. Qed.

Example loads_point_without_digit : Json.loads "1." = Raise (JSONDecodeError "Extra data").
Proof. reflexivity. Qed.

Example loads_minus_zero : Json.loads "-0" = Ok (PInt 0).
Proof. reflexivity. Qed.

Example repr_error_payload :
  Sample.repr (error_payload "it's down") = "{'error': " +:+ dq +:+ "it's down" +:+ dq +:+ "}".
Proof. reflexivity. Qed.

(** A well-formed answer gives its text; an answer without candidates
    gives the client's error dict; a first part without text gives [None]. *)
Example client_text :
  (call_gemini_api Scenario.strict "p" default_model false None initial).1
  = Ok (PStr Sample.not_medical).
Proof. reflexivity. Qed.

Example client_unexpected_shape :
  extract_text (Ok (PDict [])) = Ok (error_payload "Unexpected response from Gemini API.").
Proof. reflexivity. Qed.

Example client_textless :
  (call_gemini_api (Sample.make (Some "secret") [Scenario.textless]) "p" default_model false None
     initial).1 = Ok PNone.
Proof. reflexivity. Qed.

(** When the translation of an analysis comes back as [None], the test
    for "error" in it raises and the handler fails, the exchange already
    recorded. *)
Example translation_without_text_raises :
  (chat Scenario.mute_translator Scenario.headache_it initial).1
    = Raise (TypeError "argument is not iterable") /\
  stored (chat Scenario.mute_translator Scenario.headache_it initial).2 "s1"
    = [user_turn "I have a headache"; assistant_turn (PStr "Please rest.")].
Proof. vm_compute. done. Qed.

(** ** The completion client *)

Lemma extend_nil st : extend st [] = st.
Proof. destruct st; unfold extend; simpl. by rewrite app_nil_r. Qed.

Lemma extend_extend st l1 l2 : extend (extend st l1) l2 = extend st (l1 ++ l2).
Proof. unfold extend; simpl. by rewrite app_assoc. Qed.

(** [call_gemini_api] never raises: it returns a value, having posted its
    one request when a key is configured and nothing otherwise. *)
Lemma call_gemini_api_run E prompt model j img st :
  exists v,
    call_gemini_api E prompt model j img st = (Ok v, extend st (posted E prompt model j img)) /\
    (key_configured (API_KEY E) = false -> v = error_payload missing_key_message).
Proof.
  unfold call_gemini_api, posted.
  destruct (key_configured (API_KEY E)) eqn:Hk; simpl.
  - unfold_monad. fold (request_of E prompt model j img).
    destruct (session_post E _ _) as [e | status json text].
    + eexists; split; [reflexivity | done].
    + destruct (status =? 200)%Z.
      * destruct (extract_text json); eexists; (split; [reflexivity | done]).
      * destruct text; eexists; (split; [reflexivity | done]).
  - eexists; split; [| done]. unfold_monad. by rewrite extend_nil.
Qed.

(** ** The stages *)

Lemma gate_call_run E msg st :
  exists v,
    gate_call E msg st =
      (Ok v, extend st (EvPrompt MedicalGuard (MedicalGuardAgent.get_prompt msg)
                        :: posted E (MedicalGuardAgent.get_prompt msg) default_model true None)) /\
    (key_configured (API_KEY E) = false -> v = error_payload missing_key_message).
Proof.
  unfold gate_call. unfold_monad.
  destruct (call_gemini_api_run E (MedicalGuardAgent.get_prompt msg) default_model true None
              {| chat_sessions := chat_sessions st;
                 log := log st ++ [EvPrompt MedicalGuard (MedicalGuardAgent.get_prompt msg)] |})
    as (v & Hv & Hk).
  exists v. split; [| done]. rewrite Hv. f_equal.
  unfold extend; simpl. by rewrite <- app_assoc.
Qed.

Lemma translation_call_run E text lang st :
  exists v,
    translation_call E text lang st =
      (Ok v, extend st (EvPrompt LanguageTranslation (LanguageTranslationAgent.get_prompt E text lang)
                        :: posted E (LanguageTranslationAgent.get_prompt E text lang)
                             default_model false None)).
Proof.
  unfold translation_call. unfold_monad.
  destruct (call_gemini_api_run E (LanguageTranslationAgent.get_prompt E text lang)
              default_model false None
              {| chat_sessions := chat_sessions st;
                 log := log st ++ [EvPrompt LanguageTranslation
                                     (LanguageTranslationAgent.get_prompt E text lang)] |})
    as (v & Hv & _).
  exists v. rewrite Hv. f_equal.
  unfold extend; simpl. by rewrite <- app_assoc.
Qed.

Lemma with_session_lookup sid m : with_session sid m !! sid = Some (default [] (m !! sid)).
Proof.
  unfold with_session. destruct (m !! sid) eqn:H; simpl; [done |].
  by rewrite lookup_insert_eq.
Qed.

Lemma analysis_call_run E msg sid st :
  let h := stored st sid in
  let p := SymptomAnalysisAgent.get_prompt E msg h in
  exists ai,
    analysis_call E msg sid st =
      (Ok ai, {| chat_sessions := with_session sid (chat_sessions st);
                 log := log st ++ EvPrompt SymptomAnalysis p
                                  :: posted E p "gemini-2.5-pro" false None |}).
Proof.
  intros h p. unfold analysis_call, init_session, get_history, stored in *. unfold_monad.
  unfold with_session.
  destruct (chat_sessions st !! sid) as [h0 |] eqn:Hs; simpl in *.
  - rewrite Hs.
    destruct (call_gemini_api_run E p "gemini-2.5-pro" false None
                {| chat_sessions := chat_sessions st;
                   log := log st ++ [EvPrompt SymptomAnalysis p] |}) as (v & Hv & _).
    exists v. subst p h. rewrite Hv. f_equal.
    unfold extend; simpl. by rewrite <- app_assoc.
  - rewrite lookup_insert_eq. cbn [chat_sessions log].
    destruct (call_gemini_api_run E p "gemini-2.5-pro" false None
                {| chat_sessions := <[sid := []]> (chat_sessions st);
                   log := log st ++ [EvPrompt SymptomAnalysis p] |}) as (v & Hv & _).
    exists v. subst p h. rewrite Hv. f_equal.
    unfold extend; simpl. by rewrite <- app_assoc.
Qed.

Lemma record_exchange_run msg sid ai st h :
  chat_sessions st !! sid = Some h ->
  record_exchange msg sid ai st =
    (Ok tt, {| chat_sessions :=
                 <[sid := slice_last 10 (h ++ [user_turn msg; assistant_turn ai])]> (chat_sessions st);
               log := log st ++ [EvAppend sid (user_turn msg); EvAppend sid (assistant_turn ai)] |}).
Proof.
  intros Hs. unfold record_exchange, history_append, trim_history. unfold_monad. simpl.
  rewrite !lookup_alter_eq, Hs. simpl. f_equal. f_equal.
  - rewrite <- (app_assoc h). simpl.
    apply map_eq. intros k. destruct (decide (k = sid)) as [-> |].
    + by rewrite !lookup_insert_eq.
    + by rewrite !lookup_insert_ne, !lookup_alter_ne by done.
  - by rewrite <- app_assoc.
Qed.

(** ** The paths through the handler *)

Lemma nonempty_truthy s : s <> EmptyString -> negb (truthy (PStr s)) = false.
Proof. destruct s; [done | reflexivity]. Qed.

Lemma chat_empty E req st :
  message_of req = EmptyString ->
  chat E req st = (Ok (PDict [("error", PStr "Message cannot be empty.")]), st).
Proof. intros H. unfold chat. fold (message_of req). by rewrite H. Qed.

Section Paths.
Context (E : env) (req : request) (st st1 : state) (v : pyval).
Hypothesis Hne : message_of req <> EmptyString.
Hypothesis Hgate : gate_call E (message_of req) st = (Ok v, st1).

Lemma chat_from_gate :
  chat E req st =
  match py_json_loads E v with
  | Raise (JSONDecodeError _) | Raise (TypeError _) => (Ok (reply (PStr trouble_reply)), st1)
  | Raise e => (Raise e, st1)
  | Ok guard_response =>
      match py_get guard_response "is_medical" with
      | Raise e => (Raise e, st1)
      | Ok is_medical =>
          if negb (truthy is_medical) then
            if negb (String.eqb (language_of req) "en") then
              match translation_call E (PStr refusal_text) (language_of req) st1 with
              | (Ok t, st2) => (Ok (reply t), st2)
              | (Raise e, st2) => (Raise e, st2)
              end
            else (Ok (reply (PStr refusal_text)), st1)
          else
            match analysis_call E (message_of req) (session_of req) st1 with
            | (Raise e, st2) => (Raise e, st2)
            | (Ok ai, st2) =>
                match record_exchange (message_of req) (session_of req) ai st2 with
                | (Raise e, st3) => (Raise e, st3)
                | (Ok _, st3) =>
                    if negb (String.eqb (language_of req) "en")
                       && negb (String.eqb (language_of req) "en-US") then
                      match translation_call E ai (language_of req) st3 with
                      | (Raise e, st4) => (Raise e, st4)
                      | (Ok t, st4) =>
                          match py_in "error" t with
                          | Raise e => (Raise e, st4)
                          | Ok has_error =>
                              (Ok (reply (if negb has_error then t else ai)), st4)
                          end
                      end
                    else (Ok (reply ai), st3)
                end
            end
      end
  end.
Proof.
  unfold chat. fold (message_of req) (session_of req) (language_of req).
  rewrite (nonempty_truthy _ Hne).
  unfold gate_call, analysis_call, record_exchange, translation_call in *.
  unfold_monad. cbn [chat_sessions log] in *. rewrite Hgate. clear Hgate.
  destruct (py_json_loads E v) as [g | []]; try reflexivity.
  destruct (py_get g "is_medical") as [im |]; [| reflexivity].
  destruct (negb (truthy im)).
  - destruct (negb (String.eqb (language_of req) "en")); [| reflexivity].
    by destruct (call_gemini_api _ _ _ _ _ _) as [[] ?].
  - destruct (init_session _ _) as [[] ?]; [| reflexivity].
    destruct (get_history _ _) as [[] ?]; [| reflexivity].
    cbn [chat_sessions log].
    destruct (call_gemini_api _ _ _ _ _ _) as [[ai |] ?]; [| reflexivity].
    destruct (history_append _ _ _) as [[] ?]; [| reflexivity].
    destruct (history_append _ _ _) as [[] ?]; [| reflexivity].
    destruct (trim_history _ _) as [[] ?]; [| reflexivity].
    destruct (_ && _); [| reflexivity].
    destruct (call_gemini_api _ _ _ _ _ _) as [[t |] ?]; [| reflexivity].
    by destruct (py_in "error" t) as [[] |].
Qed.
End Paths.

(** ** Lists: the newest turns and the exchanges *)

Lemma slice_last_length {A} n (l : list A) : length (slice_last n l) = min n (length l).
Proof. unfold slice_last. rewrite length_drop. lia. Qed.

Lemma slice_last_short {A} n (l : list A) : length l <= n -> slice_last n l = l.
Proof. intros H. unfold slice_last. by replace (length l - n) with 0 by lia. Qed.

Lemma slice_last_app {A} n (p q : list A) : n <= length q -> slice_last n (p ++ q) = slice_last n q.
Proof.
  intros H. unfold slice_last. rewrite length_app.
  replace (length p + length q - n) with (length p + (length q - n)) by lia.
  by rewrite drop_app_add.
Qed.

(** Cutting, appending and cutting again keeps what cutting once at the
    end keeps. *)
Lemma slice_last_app_slice {A} n (l k : list A) :
  slice_last n (slice_last n l ++ k) = slice_last n (l ++ k).
Proof.
  destruct (decide (length l <= n)) as [Hle | Hgt].
  - by rewrite (slice_last_short n l).
  - rewrite <- (take_drop (length l - n) l) at 2. rewrite <- app_assoc.
    change (drop (length l - n) l) with (slice_last n l).
    symmetry. apply slice_last_app.
    rewrite length_app, slice_last_length. lia.
Qed.

Lemma turns_of_app xs ys : turns_of (xs ++ ys) = turns_of xs ++ turns_of ys.
Proof. unfold turns_of. by rewrite map_app, concat_app. Qed.

Lemma turns_of_length xs : length (turns_of xs) = 2 * length xs.
Proof. induction xs as [| x xs IH]; [done |]. cbn [turns_of map concat length] in *.
  unfold turns_of in IH. simpl. rewrite IH. lia. Qed.

Lemma turns_of_drop k xs : drop (2 * k) (turns_of xs) = turns_of (drop k xs).
Proof.
  revert xs. induction k as [| k IH]; intros xs; [done |].
  destruct xs as [| x xs]; [done |].
  replace (2 * S k) with (S (S (2 * k))) by lia. simpl. apply IH.
Qed.

(** The newest ten turns of whole exchanges are the newest five exchanges. *)
Lemma slice_last_turns_of xs : slice_last 10 (turns_of xs) = turns_of (slice_last 5 xs).
Proof.
  unfold slice_last. rewrite turns_of_length, <- turns_of_drop. f_equal. lia.
Qed.

Lemma appended_app sid l1 l2 : appended sid (l1 ++ l2) = appended sid l1 ++ appended sid l2.
Proof. apply omap_app. Qed.

Lemma appended_posted sid E p m j i : appended sid (posted E p m j i) = [].
Proof. unfold posted. by destruct (key_configured _). Qed.

Lemma posts_app l1 l2 : posts (l1 ++ l2) = posts l1 ++ posts l2.
Proof. apply omap_app. Qed.

(** ** What one request does to the sessions *)

Lemma appended_prompt_posted sid a p E q m j i :
  appended sid (EvPrompt a p :: posted E q m j i) = [].
Proof. cbn. apply appended_posted. Qed.

Lemma insert_with_session sid (h : list turn) (m : gmap string (list turn)) :
  <[sid := h]> (with_session sid m) = <[sid := h]> m.
Proof.
  unfold with_session. destruct (m !! sid); [done |]. by rewrite insert_insert_eq.
Qed.

(** A request either leaves every history alone, or appends one exchange
    to the history of its session and cuts that history to its newest ten
    turns. *)
Lemma chat_effect E req st :
  (chat_sessions (chat E req st).2 = chat_sessions st /\
   forall sid, appended sid (log (chat E req st).2) = appended sid (log st)) \/
  (exists ai,
     chat_sessions (chat E req st).2 =
       <[session_of req := slice_last 10 (stored st (session_of req)
                                          ++ exchange_turns (message_of req, ai))]>
         (chat_sessions st) /\
     forall sid, appended sid (log (chat E req st).2) =
                 appended sid (log st)
                 ++ (if String.eqb (session_of req) sid
                     then exchange_turns (message_of req, ai) else [])).
Proof.
  destruct (decide (message_of req = EmptyString)) as [He | Hne].
  { left. by rewrite chat_empty. }
  destruct (gate_call_run E (message_of req) st) as (v & Hg & _).
  rewrite (chat_from_gate _ _ _ _ _ Hne Hg).
  assert (Hquiet : forall sid l, appended sid l = [] ->
            appended sid (log st ++ l) = appended sid (log st)).
  { intros sid l Hl. by rewrite appended_app, Hl, app_nil_r. }
  destruct (py_json_loads E v) as [g | []];
    try (left; split; [done | intros sid; apply Hquiet, appended_prompt_posted]).
  destruct (py_get g "is_medical") as [im |];
    [| left; split; [done | intros sid; apply Hquiet, appended_prompt_posted]].
  destruct (negb (truthy im)).
  - destruct (negb (String.eqb (language_of req) "en"));
      [| left; split; [done | intros sid; apply Hquiet, appended_prompt_posted]].
    destruct (translation_call_run E (PStr refusal_text) (language_of req)
                (extend st (EvPrompt MedicalGuard (MedicalGuardAgent.get_prompt (message_of req))
                   :: posted E (MedicalGuardAgent.get_prompt (message_of req))
                        default_model true None))) as (t & ->).
    left. split; [done |]. intros sid. cbn [snd extend log].
    rewrite !appended_app, !appended_prompt_posted. by rewrite !app_nil_r.
  - match goal with |- context [analysis_call E ?m ?s ?st1] =>
      destruct (analysis_call_run E m s st1) as (ai & ->) end.
    erewrite record_exchange_run; [| cbn [chat_sessions extend]; apply with_session_lookup].
    cbn [chat_sessions log extend].
    assert (Happ : forall sid l,
              appended sid l = [] ->
              appended sid
                (((log st ++ l) ++ EvPrompt SymptomAnalysis
                     (SymptomAnalysisAgent.get_prompt E (message_of req)
                        (stored (extend st l) (session_of req)))
                   :: posted E (SymptomAnalysisAgent.get_prompt E (message_of req)
                        (stored (extend st l) (session_of req))) "gemini-2.5-pro" false None)
                 ++ [EvAppend (session_of req) (user_turn (message_of req));
                     EvAppend (session_of req) (assistant_turn ai)]) =
              appended sid (log st)
              ++ (if String.eqb (session_of req) sid
                  then exchange_turns (message_of req, ai) else [])).
    { intros sid l Hl. rewrite !appended_app, Hl, appended_prompt_posted, !app_nil_r.
      f_equal. cbn. by destruct (String.eqb (session_of req) sid). }
    right. exists ai.
    destruct (_ && _).
    + match goal with |- context [translation_call E ?x ?y ?z] =>
        destruct (translation_call_run E x y z) as (t & ->) end.
      destruct (py_in "error" t) as [b |]; cbn [snd chat_sessions log extend];
        (split; [apply insert_with_session |]);
        intros sid; rewrite (appended_app sid _ (_ :: posted _ _ _ _ _)),
                      appended_prompt_posted, app_nil_r;
        apply Happ, appended_prompt_posted.
    + cbn [snd chat_sessions log]. split; [apply insert_with_session |].
      intros sid. apply Happ, appended_prompt_posted.
Qed.

(** ** The invariant of the session table *)

Lemma initial_ok : histories_ok initial.
Proof. intros sid. split; [done |]. by exists []. Qed.

Lemma chat_ok E req st : histories_ok st -> histories_ok (chat E req st).2.
Proof.
  intros Hok sid. destruct (Hok sid) as (Hst & xs & Hxs).
  destruct (chat_effect E req st) as [(Hs & Ha) | (ai & Hs & Ha)].
  - unfold stored. rewrite Hs, Ha. split; [done |]. by exists xs.
  - unfold stored. rewrite Hs, Ha.
    destruct (String.eqb_spec (session_of req) sid) as [-> | Hneq].
    + rewrite lookup_insert_eq. cbn [default]. split.
      * fold (stored st sid). rewrite Hst. apply slice_last_app_slice.
      * exists (xs ++ [(message_of req, ai)]).
        rewrite Hxs, turns_of_app. f_equal.
    + rewrite lookup_insert_ne by done. rewrite app_nil_r. split; [done |]. by exists xs.
Qed.

Lemma serve_cons E r rs st :
  (serve E (r :: rs) st).2 = (serve E rs (chat E r st).2).2.
Proof.
  cbn [serve]. destruct (chat E r st) as [out st']. cbn [snd].
  by destruct (serve E rs st') as [outs st''].
Qed.

Lemma serve_ok E rs st : histories_ok st -> histories_ok (serve E rs st).2.
Proof.
  revert st. induction rs as [| r rs IH]; intros st Hok; [done |].
  rewrite serve_cons. by apply IH, chat_ok.
Qed.

(** ** The retention window *)

(** C2.  However many requests have been served one after the other since
    the process started, and whatever the completion service answered,
    the stored history of every session is exactly the newest ten of the
    turns appended to that session, in the order in which they were
    appended; it never holds more than ten turns. *)
Theorem history_is_newest_ten :
  forall (E : env) (rs : list request) (sid : string),
    let st := (serve E rs initial).2 in
    stored st sid = slice_last 10 (appended sid (log st)) /\
    length (stored st sid) <= 10.
Proof.
  intros E rs sid st.
  destruct (serve_ok E rs initial initial_ok sid) as (Hst & _).
  fold st in Hst. split; [done |].
  rewrite Hst, slice_last_length. lia.
Qed.

(** C10.  Served one after the other, the requests keep every stored
    history made of whole exchanges: the turns appended to a session are
    a sequence of (user, assistant) pairs, and what is stored is exactly
    the newest five of these pairs (all of them while there are at most
    five), so it has even length, at most ten turns, and begins with a
    user turn. *)
Theorem history_is_whole_exchanges :
  forall (E : env) (rs : list request) (sid : string),
    let st := (serve E rs initial).2 in
    exists xs : list (string * pyval),
      appended sid (log st) = turns_of xs /\
      stored st sid = turns_of (slice_last 5 xs) /\
      length (stored st sid) = 2 * min 5 (length xs).
Proof.
  intros E rs sid st.
  destruct (serve_ok E rs initial initial_ok sid) as (Hst & xs & Hxs).
  fold st in Hst, Hxs. exists xs. split; [done |].
  rewrite Hst, Hxs, slice_last_turns_of. split; [done |].
  by rewrite turns_of_length, slice_last_length.
Qed.


(** ** Errors of the completion client on their way to the caller *)

(** C1 (does not hold in the code).  The request "I have a headache" in
    English is classified medical and the analysis completion then fails
    with status 500: the reply field of the response is the error dict of
    the completion client, not a text. *)
Theorem analysis_error_is_the_reply :
  (chat Scenario.failing_analyst Scenario.headache initial).1
  = Ok (reply (error_payload "Failed to get response from Gemini API. Status: 500")).
Proof. vm_compute. reflexivity. Qed.

(** C3 (does not hold in the code).  The request "What's 2+2?" in Spanish
    is classified non-medical and the translation of the refusal fails
    with status 503: the reply is the error dict of the completion client,
    not the untranslated refusal. *)
Theorem refusal_translation_error_is_the_reply :
  (chat Scenario.failing_translator Scenario.sum_es initial).1
  = Ok (reply (error_payload "Failed to get response from Gemini API. Status: 503")).
Proof. vm_compute. reflexivity. Qed.

(** C4 (does not hold in the code).  The request "What's 2+2?" with
    language en-US is classified non-medical: the handler builds a
    translation prompt for the refusal and posts it, so that two requests
    reach the completion service, and the reply is what the second one
    returned. *)
Theorem en_US_refusal_is_translated :
  chat Scenario.obliging Scenario.sum_en_US initial
  = (Ok (reply (PStr "I only answer medical questions.")),
     extend initial
       [ EvPrompt MedicalGuard (MedicalGuardAgent.get_prompt "What's 2+2?");
         EvPost (request_of Scenario.obliging (MedicalGuardAgent.get_prompt "What's 2+2?")
                   default_model true None);
         EvPrompt LanguageTranslation
           (LanguageTranslationAgent.prompt_text Scenario.obliging "English" (PStr refusal_text));
         EvPost (request_of Scenario.obliging
                   (LanguageTranslationAgent.prompt_text Scenario.obliging "English"
                      (PStr refusal_text))
                   default_model false None) ]).
Proof. vm_compute. reflexivity. Qed.

(** ** The gate *)

Lemma error_payload_unreadable E v : is_error_payload v -> gate_unreadable E v.
Proof. intros [msg ->]. right. by eexists. Qed.

Lemma undecodable_unreadable E s msg :
  json_loads E s = Raise (JSONDecodeError msg) -> gate_unreadable E (PStr s).
Proof. intros H. left. by exists msg. Qed.

Lemma chat_gate_unreadable E req st st1 v :
  message_of req <> EmptyString ->
  gate_call E (message_of req) st = (Ok v, st1) ->
  gate_unreadable E v ->
  chat E req st = (Ok (reply (PStr trouble_reply)), st1).
Proof.
  intros Hne Hg Hu. rewrite (chat_from_gate _ _ _ _ _ Hne Hg).
  by destruct Hu as [[msg ->] | [msg ->]].
Qed.

(** A gate completion that decodes to something other than a JSON object
    makes the handler raise: only a dict has [get]. *)
Lemma chat_gate_not_an_object E req st st1 s g :
  message_of req <> EmptyString ->
  gate_call E (message_of req) st = (Ok (PStr s), st1) ->
  json_loads E s = Ok g ->
  (forall d, g <> PDict d) ->
  chat E req st = (Raise (AttributeError "get"), st1).
Proof.
  intros Hne Hg Hl Hd. rewrite (chat_from_gate _ _ _ _ _ Hne Hg).
  cbn [py_json_loads]. rewrite Hl. destruct g; try done. by destruct (Hd d).
Qed.

(** C5, as the code has it.  When the gate's completion is an error dict
    of the client, or a text that [json.loads] rejects, the reply is the
    "trouble understanding" text and the handler stops there, in the state
    the gate call left: neither the medical path nor the refusal is taken.
    When the text decodes to a JSON object whose [is_medical] is absent or
    falsy, the request is handled as non-medical: for the language "en"
    the reply is the fixed refusal, in the state the gate call left.
    Nothing is said here of a completion that decodes to something other
    than an object, of an [is_medical] that is truthy without being a
    boolean, or of the refusal in another language. *)
Theorem gate_fails_closed_absent_flag_refuses :
  forall (E : env) (req : request) (st st1 : state) (v : pyval),
    message_of req <> EmptyString ->
    gate_call E (message_of req) st = (Ok v, st1) ->
    ((is_error_payload v \/
      (exists s msg, v = PStr s /\ json_loads E s = Raise (JSONDecodeError msg))) ->
     chat E req st = (Ok (reply (PStr trouble_reply)), st1)) /\
    (forall s d,
       v = PStr s ->
       json_loads E s = Ok (PDict d) ->
       truthy (default PNone (assoc "is_medical" d)) = false ->
       language_of req = "en" ->
       chat E req st = (Ok (reply (PStr refusal_text)), st1)).
Proof.
  intros E req st st1 v Hne Hg. split.
  - intros [He | (s & msg & -> & Hl)].
    + by apply (chat_gate_unreadable E req st st1 v), error_payload_unreadable.
    + by eapply chat_gate_unreadable, undecodable_unreadable.
  - intros s d -> Hl Hf Hen. rewrite (chat_from_gate _ _ _ _ _ Hne Hg).
    cbn [py_json_loads py_get]. rewrite Hl. cbn [py_get]. by rewrite Hf, Hen.
Qed.

Lemma gate_fails_closed_absent_flag_refuses_witness :
  chat Scenario.down Scenario.headache initial
    = (Ok (reply (PStr trouble_reply)),
       (gate_call Scenario.down "I have a headache" initial).2) /\
  chat Scenario.vague Scenario.headache initial
    = (Ok (reply (PStr refusal_text)),
       (gate_call Scenario.vague "I have a headache" initial).2).
Proof.
  split.
  - apply (gate_fails_closed_absent_flag_refuses Scenario.down Scenario.headache initial
             (gate_call Scenario.down "I have a headache" initial).2
             (error_payload "Failed to get response from Gemini API. Status: 500")).
    + discriminate.
    + vm_compute. reflexivity.
    + left. by eexists.
  - apply (proj2 (gate_fails_closed_absent_flag_refuses Scenario.vague Scenario.headache initial
                    (gate_call Scenario.vague "I have a headache" initial).2 (PStr "{}")
                    ltac:(discriminate) ltac:(vm_compute; reflexivity)) "{}" []).
    + reflexivity.
    + vm_compute. reflexivity.
    + reflexivity.
    + reflexivity.
Defined.

(** C5 as stated fails: the gate's completion is the text of the JSON
    object without any key; it has no boolean [is_medical], yet the reply
    is the refusal of the non-medical path, not the "trouble
    understanding" text. *)
Lemma gate_object_without_is_medical :
  Json.loads "{}" = Ok (PDict []) /\
  (chat Scenario.vague Scenario.headache initial).1 = Ok (reply (PStr refusal_text)) /\
  (chat Scenario.vague Scenario.headache initial).1 <> Ok (reply (PStr trouble_reply)).
Proof. vm_compute. split; [done |]. split; [done | discriminate]. Qed.

(** ** No credential *)

(** C6, as the code has it.  With no key configured, a request with a
    non-empty message returns, without raising, the "trouble
    understanding" reply: the gate call returns the client's missing-key
    error dict, which [json.loads] rejects.  Nothing is posted to the
    completion service and no session is touched. *)
Theorem missing_key_gives_trouble_reply :
  forall (E : env) (req : request) (st : state),
    key_configured (API_KEY E) = false ->
    message_of req <> EmptyString ->
    exists st',
      chat E req st = (Ok (reply (PStr trouble_reply)), st') /\
      posts (log st') = posts (log st) /\
      chat_sessions st' = chat_sessions st.
Proof.
  intros E req st Hk Hne.
  destruct (gate_call_run E (message_of req) st) as (v & Hg & Hv).
  eexists. split.
  - apply (chat_gate_unreadable E req st _ v Hne Hg).
    apply error_payload_unreadable. rewrite (Hv Hk). by eexists.
  - split; [| done]. cbn [extend log]. unfold posted. rewrite Hk.
    rewrite posts_app. cbn. by rewrite app_nil_r.
Qed.

Lemma missing_key_gives_trouble_reply_witness :
  exists st',
    chat Scenario.keyless Scenario.headache initial = (Ok (reply (PStr trouble_reply)), st') /\
    posts (log st') = posts (log initial) /\
    chat_sessions st' = chat_sessions initial.
Proof.
  apply (missing_key_gives_trouble_reply Scenario.keyless Scenario.headache initial).
  - reflexivity.
  - discriminate.
Defined.

(** C6 as stated fails: with no key configured the reply is the "trouble
    understanding" text, which says nothing of a key or a credential; it
    is the reply that a configured key gives when the gate's completion is
    not JSON. *)
Lemma missing_key_reply_is_generic :
  (chat Scenario.keyless Scenario.headache initial).1 = Ok (reply (PStr trouble_reply)) /\
  (chat Scenario.keyless Scenario.headache initial).1 <> Ok (reply (PStr missing_key_message)) /\
  str_contains "GEMINI_API_KEY" trouble_reply = false /\
  str_contains "credential" trouble_reply = false /\
  str_contains "configured" trouble_reply = false /\
  (chat Scenario.chatty Scenario.headache initial).1
    = (chat Scenario.keyless Scenario.headache initial).1.
Proof. vm_compute. repeat split; done. Qed.

(** ** The medical path *)

Lemma gate_state E msg st v st1 :
  gate_call E msg st = (Ok v, st1) ->
  st1 = extend st (EvPrompt MedicalGuard (MedicalGuardAgent.get_prompt msg)
                   :: posted E (MedicalGuardAgent.get_prompt msg) default_model true None) /\
  (key_configured (API_KEY E) = false -> v = error_payload missing_key_message).
Proof.
  intros Hg. destruct (gate_call_run E msg st) as (v' & Hg' & Hk).
  rewrite Hg in Hg'. by injection Hg' as -> ->.
Qed.

Lemma gate_text_needs_key E msg st s st1 :
  gate_call E msg st = (Ok (PStr s), st1) -> key_configured (API_KEY E) = true.
Proof.
  intros Hg. destruct (gate_state _ _ _ _ _ Hg) as (_ & Hk).
  destruct (key_configured (API_KEY E)); [done |]. by specialize (Hk eq_refl).
Qed.

(** The handler on a request that the gate classified medical. *)
Lemma chat_medical E req st st1 s g im :
  message_of req <> EmptyString ->
  gate_call E (message_of req) st = (Ok (PStr s), st1) ->
  json_loads E s = Ok g ->
  py_get g "is_medical" = Ok im ->
  truthy im = true ->
  exists ai st2 st3,
    analysis_call E (message_of req) (session_of req) st1 = (Ok ai, st2) /\
    record_exchange (message_of req) (session_of req) ai st2 = (Ok tt, st3) /\
    chat_sessions st3 =
      <[session_of req := slice_last 10 (stored st (session_of req)
                                         ++ [user_turn (message_of req); assistant_turn ai])]>
        (chat_sessions st) /\
    chat E req st =
      if negb (String.eqb (language_of req) "en") && negb (String.eqb (language_of req) "en-US")
      then match translation_call E ai (language_of req) st3 with
           | (Raise e, st4) => (Raise e, st4)
           | (Ok t, st4) =>
               match py_in "error" t with
               | Raise e => (Raise e, st4)
               | Ok has_error => (Ok (reply (if negb has_error then t else ai)), st4)
               end
           end
      else (Ok (reply ai), st3).
Proof.
  intros Hne Hg Hl Hget Him.
  rewrite (chat_from_gate _ _ _ _ _ Hne Hg). cbn [py_json_loads].
  rewrite Hl, Hget, Him. cbn [negb].
  destruct (gate_state _ _ _ _ _ Hg) as (-> & _).
  match goal with |- context [analysis_call E ?m ?sid ?st1] =>
    destruct (analysis_call_run E m sid st1) as (ai & Ha) end.
  rewrite Ha. exists ai. do 2 eexists. split; [reflexivity |].
  erewrite record_exchange_run; [| cbn [chat_sessions extend]; apply with_session_lookup].
  split; [reflexivity |]. split; [| reflexivity].
  cbn [chat_sessions extend]. apply insert_with_session.
Qed.

(** C7, as the code has it.  On a request classified medical the user
    turn and then the assistant turn are appended to the history of the
    session, whatever the analysis call returned (an error dict of the
    client included), and the history is then cut to its newest ten
    turns.  So the stored history grows by exactly these two turns as
    long as it held at most eight. *)
Theorem medical_request_records_exchange :
  forall (E : env) (req : request) (st st1 : state) (s : string) (g im : pyval),
    message_of req <> EmptyString ->
    gate_call E (message_of req) st = (Ok (PStr s), st1) ->
    json_loads E s = Ok g ->
    py_get g "is_medical" = Ok im ->
    truthy im = true ->
    exists ai st2,
      analysis_call E (message_of req) (session_of req) st1 = (Ok ai, st2) /\
      let before := stored st (session_of req) in
      let after := stored (chat E req st).2 (session_of req) in
      let exchange := [user_turn (message_of req); assistant_turn ai] in
      after = slice_last 10 (before ++ exchange) /\
      (length before <= 8 -> after = before ++ exchange /\ length after = length before + 2).
Proof.
  intros E req st st1 s g im Hne Hg Hl Hget Him.
  destruct (chat_medical E req st st1 s g im Hne Hg Hl Hget Him)
    as (ai & st2 & st3 & Ha & _ & Hs & Hc).
  exists ai, st2. split; [done |]. cbn zeta.
  assert (Hafter : stored (chat E req st).2 (session_of req) =
                   slice_last 10 (stored st (session_of req)
                                  ++ [user_turn (message_of req); assistant_turn ai])).
  { assert (Hcs : chat_sessions (chat E req st).2 = chat_sessions st3).
    { rewrite Hc. destruct (_ && _); [| done].
      destruct (translation_call_run E ai (language_of req) st3) as (t & ->).
      by destruct (py_in "error" t). }
    unfold stored at 1. by rewrite Hcs, Hs, lookup_insert_eq. }
  split; [done |]. intros Hlen. rewrite Hafter.
  rewrite slice_last_short by (rewrite length_app; simpl; lia).
  split; [done |]. rewrite length_app. simpl. lia.
Qed.

Lemma medical_request_records_exchange_witness :
  exists ai st2,
    analysis_call Scenario.patient "I have a headache" "s1"
      (gate_call Scenario.patient "I have a headache" initial).2 = (Ok ai, st2) /\
    let before := stored initial "s1" in
    let after := stored (chat Scenario.patient Scenario.headache initial).2 "s1" in
    let exchange := [user_turn "I have a headache"; assistant_turn ai] in
    after = slice_last 10 (before ++ exchange) /\
    (length before <= 8 -> after = before ++ exchange /\ length after = length before + 2).
Proof.
  apply (medical_request_records_exchange Scenario.patient Scenario.headache initial
           (gate_call Scenario.patient "I have a headache" initial).2
           Sample.medical (PDict [("is_medical", PBool true)]) (PBool true)).
  - discriminate.
  - vm_compute. reflexivity.
  - vm_compute. reflexivity.
  - reflexivity.
  - reflexivity.
Defined.

(** C7 as stated fails: a session that already holds ten turns gets a
    sixth request, again classified medical and answered; its stored
    history holds ten turns afterwards as before, not twelve. *)
Lemma full_history_does_not_grow :
  length (stored Scenario.after_five "s1") = 10 /\
  (chat Scenario.patient Scenario.headache Scenario.after_five).1
    = Ok (reply (PStr "Answer 6")) /\
  length (stored (chat Scenario.patient Scenario.headache Scenario.after_five).2 "s1") = 10 /\
  length (stored (chat Scenario.patient Scenario.headache Scenario.after_five).2 "s1")
    <> length (stored Scenario.after_five "s1") + 2.
Proof. vm_compute. repeat split; done. Qed.

(** On the medical path a translation that comes back as an error dict of
    the client is dropped: the reply is the analysis text. *)
Lemma analysis_translation_error_falls_back E req st st1 s g im :
  message_of req <> EmptyString ->
  gate_call E (message_of req) st = (Ok (PStr s), st1) ->
  json_loads E s = Ok g ->
  py_get g "is_medical" = Ok im ->
  truthy im = true ->
  language_of req <> "en" ->
  language_of req <> "en-US" ->
  exists ai st2 st3,
    analysis_call E (message_of req) (session_of req) st1 = (Ok ai, st2) /\
    record_exchange (message_of req) (session_of req) ai st2 = (Ok tt, st3) /\
    forall t st4,
      translation_call E ai (language_of req) st3 = (Ok t, st4) ->
      is_error_payload t ->
      chat E req st = (Ok (reply ai), st4).
Proof.
  intros Hne Hg Hl Hget Him Hen Hus.
  destruct (chat_medical E req st st1 s g im Hne Hg Hl Hget Him)
    as (ai & st2 & st3 & Ha & Hr & _ & Hc).
  exists ai, st2, st3. do 2 (split; [done |]).
  intros t st4 Ht [msg ->].
  apply String.eqb_neq in Hen, Hus. by rewrite Hc, Hen, Hus, Ht.
Qed.

(** On the medical path neither "en" nor "en-US" is translated: the reply
    is the analysis text and the handler stops once the exchange is
    recorded. *)
Lemma english_analysis_is_not_translated E req st st1 s g im :
  message_of req <> EmptyString ->
  gate_call E (message_of req) st = (Ok (PStr s), st1) ->
  json_loads E s = Ok g ->
  py_get g "is_medical" = Ok im ->
  truthy im = true ->
  language_of req = "en" \/ language_of req = "en-US" ->
  exists ai st2 st3,
    analysis_call E (message_of req) (session_of req) st1 = (Ok ai, st2) /\
    record_exchange (message_of req) (session_of req) ai st2 = (Ok tt, st3) /\
    chat E req st = (Ok (reply ai), st3).
Proof.
  intros Hne Hg Hl Hget Him Hlang.
  destruct (chat_medical E req st st1 s g im Hne Hg Hl Hget Him)
    as (ai & st2 & st3 & Ha & Hr & _ & Hc).
  exists ai, st2, st3. do 2 (split; [done |]).
  rewrite Hc. by destruct Hlang as [-> | ->].
Qed.

(** ** The refusal *)

(** C8.  A request in English whose gate completion says that it is not
    medical is answered with the fixed refusal, word for word.  The
    handler stops in the state the gate call left: beyond the gate prompt
    and its one post nothing happened, so the prompt of the conversation
    agent was not built, nothing was appended to any history, and the
    session table is as it was. *)
Theorem english_refusal_is_verbatim :
  forall (E : env) (req : request) (st st1 : state) (s : string) (g im : pyval),
    message_of req <> EmptyString ->
    language_of req = "en" ->
    gate_call E (message_of req) st = (Ok (PStr s), st1) ->
    json_loads E s = Ok g ->
    py_get g "is_medical" = Ok im ->
    truthy im = false ->
    let gate_prompt := MedicalGuardAgent.get_prompt (message_of req) in
    let events := [EvPrompt MedicalGuard gate_prompt;
                   EvPost (request_of E gate_prompt default_model true None)] in
    chat E req st = (Ok (reply (PStr refusal_text)), st1) /\
    log st1 = log st ++ events /\
    prompts_of SymptomAnalysis events = [] /\
    (forall sid, appended sid events = []) /\
    chat_sessions st1 = chat_sessions st.
Proof.
  intros E req st st1 s g im Hne Hen Hg Hl Hget Him gate_prompt events.
  split.
  - rewrite (chat_from_gate _ _ _ _ _ Hne Hg). cbn [py_json_loads].
    by rewrite Hl, Hget, Him, Hen.
  - pose proof (gate_text_needs_key _ _ _ _ _ Hg) as Hk.
    destruct (gate_state _ _ _ _ _ Hg) as (-> & _).
    cbn [extend log chat_sessions]. unfold posted. rewrite Hk. done.
Qed.

Lemma english_refusal_is_verbatim_witness :
  let gate_prompt := MedicalGuardAgent.get_prompt "What's 2+2?" in
  let events := [EvPrompt MedicalGuard gate_prompt;
                 EvPost (request_of Scenario.strict gate_prompt default_model true None)] in
  chat Scenario.strict Scenario.sum initial
    = (Ok (reply (PStr refusal_text)), (gate_call Scenario.strict "What's 2+2?" initial).2) /\
  log (gate_call Scenario.strict "What's 2+2?" initial).2 = log initial ++ events /\
  prompts_of SymptomAnalysis events = [] /\
  (forall sid, appended sid events = []) /\
  chat_sessions (gate_call Scenario.strict "What's 2+2?" initial).2 = chat_sessions initial.
Proof.
  apply (english_refusal_is_verbatim Scenario.strict Scenario.sum initial
           (gate_call Scenario.strict "What's 2+2?" initial).2
           Sample.not_medical (PDict [("is_medical", PBool false)]) (PBool false)).
  - discriminate.
  - reflexivity.
  - vm_compute. reflexivity.
  - vm_compute. reflexivity.
  - reflexivity.
  - reflexivity.
Defined.

(** ** Languages outside the enumeration *)

Lemma language_map_get_default code m dflt :
  existsb (String.eqb code) (map fst m) = false ->
  LanguageTranslationAgent.language_map_get code m dflt = dflt.
Proof.
  induction m as [| [k name] m IH]; [done |]. cbn.
  destruct (String.eqb code k); [done |]. apply IH.
Qed.

Lemma get_prompt_unsupported E text code :
  LanguageTranslationAgent.supported code = false ->
  LanguageTranslationAgent.get_prompt E text code
  = LanguageTranslationAgent.prompt_text E "English" text.
Proof.
  intros H. unfold LanguageTranslationAgent.get_prompt.
  by rewrite language_map_get_default.
Qed.

(** C9, as the code has it.  For a language code outside the enumeration
    the translator's target language is English, and it is used: on a
    request classified medical whose code is neither "en" nor "en-US", the
    prompt asking for a translation of the analysis text into English is
    built and posted to the completion service.  The reply is what that
    call returned when "error" does not occur in it, and the untranslated
    analysis text when it does. *)
Theorem unsupported_code_translates_into_english :
  forall (E : env) (req : request) (st st1 : state) (s : string) (g im : pyval),
    message_of req <> EmptyString ->
    gate_call E (message_of req) st = (Ok (PStr s), st1) ->
    json_loads E s = Ok g ->
    py_get g "is_medical" = Ok im ->
    truthy im = true ->
    LanguageTranslationAgent.supported (language_of req) = false ->
    language_of req <> "en" ->
    language_of req <> "en-US" ->
    exists ai st2 st3 t st4,
      analysis_call E (message_of req) (session_of req) st1 = (Ok ai, st2) /\
      record_exchange (message_of req) (session_of req) ai st2 = (Ok tt, st3) /\
      translation_call E ai (language_of req) st3 = (Ok t, st4) /\
      let p := LanguageTranslationAgent.prompt_text E "English" ai in
      log st4 = log st3 ++ [EvPrompt LanguageTranslation p;
                            EvPost (request_of E p default_model false None)] /\
      (chat E req st).2 = st4 /\
      (py_in "error" t = Ok false -> (chat E req st).1 = Ok (reply t)) /\
      (py_in "error" t = Ok true -> (chat E req st).1 = Ok (reply ai)).
Proof.
  intros E req st st1 s g im Hne Hg Hl Hget Him Hsup Hen Hus.
  destruct (chat_medical E req st st1 s g im Hne Hg Hl Hget Him)
    as (ai & st2 & st3 & Ha & Hr & _ & Hc).
  destruct (translation_call_run E ai (language_of req) st3) as (t & Ht).
  rewrite get_prompt_unsupported in Ht by done. unfold posted in Ht.
  rewrite (gate_text_needs_key _ _ _ _ _ Hg) in Ht.
  apply String.eqb_neq in Hen, Hus. rewrite Hen, Hus, Ht in Hc. cbn [negb andb] in Hc.
  exists ai, st2, st3, t. eexists. do 3 (split; [eassumption |]).
  split; [done |]. rewrite Hc.
  split; [by destruct (py_in "error" t) |].
  by split; intros ->.
Qed.

Lemma unsupported_code_translates_into_english_witness :
  exists ai st2 st3 t st4,
    analysis_call Scenario.polyglot "I have a headache" "s1"
      (gate_call Scenario.polyglot "I have a headache" initial).2 = (Ok ai, st2) /\
    record_exchange "I have a headache" "s1" ai st2 = (Ok tt, st3) /\
    translation_call Scenario.polyglot ai "it" st3 = (Ok t, st4) /\
    let p := LanguageTranslationAgent.prompt_text Scenario.polyglot "English" ai in
    log st4 = log st3 ++ [EvPrompt LanguageTranslation p;
                          EvPost (request_of Scenario.polyglot p default_model false None)] /\
    (chat Scenario.polyglot Scenario.headache_it initial).2 = st4 /\
    (py_in "error" t = Ok false ->
       (chat Scenario.polyglot Scenario.headache_it initial).1 = Ok (reply t)) /\
    (py_in "error" t = Ok true ->
       (chat Scenario.polyglot Scenario.headache_it initial).1 = Ok (reply ai)).
Proof.
  apply (unsupported_code_translates_into_english Scenario.polyglot Scenario.headache_it initial
           (gate_call Scenario.polyglot "I have a headache" initial).2
           Sample.medical (PDict [("is_medical", PBool true)]) (PBool true)).
  - discriminate.
  - vm_compute. reflexivity.
  - vm_compute. reflexivity.
  - reflexivity.
  - reflexivity.
  - reflexivity.
  - discriminate.
  - discriminate.
Defined.

(** C9 as stated fails: the headache is reported with the code "it", which
    is outside the enumeration and is neither "en" nor "en-US".  A
    translation prompt is built, three requests reach the completion
    service, and the reply is what the third returned, not the analysis
    text. *)
Lemma unsupported_code_is_not_passthrough :
  LanguageTranslationAgent.supported "it" = false /\
  (chat Scenario.polyglot Scenario.headache_it initial).1
    = Ok (reply (PStr "Do rest, please.")) /\
  (chat Scenario.polyglot Scenario.headache_it initial).1
    <> Ok (reply (PStr "Please rest.")) /\
  prompts_of LanguageTranslation (log (chat Scenario.polyglot Scenario.headache_it initial).2)
    = [LanguageTranslationAgent.prompt_text Scenario.polyglot "English" (PStr "Please rest.")] /\
  length (posts (log (chat Scenario.polyglot Scenario.headache_it initial).2)) = 3.
Proof. vm_compute. repeat split; done. Qed.

(** * Further properties *)

(** ** The completion client, whatever the service does *)

(** X1.  [call_gemini_api] never raises, whatever the completion service
    does: it returns a value and leaves the session table alone.  With a
    key configured it posts exactly one request; without one it posts
    nothing and returns the missing-key error dict, image or no image. *)
Theorem client_always_returns :
  forall (E : env) (prompt model : string) (j : bool) (img : option string) (st : state),
    exists v st',
      call_gemini_api E prompt model j img st = (Ok v, st') /\
      chat_sessions st' = chat_sessions st /\
      (if key_configured (API_KEY E)
       then log st' = log st ++ [EvPost (request_of E prompt model j img)]
       else log st' = log st /\ v = error_payload missing_key_message).
Proof.
  intros E prompt model j img st.
  destruct (call_gemini_api_run E prompt model j img st) as (v & Hv & Hk).
  exists v. eexists. split; [exact Hv |]. split; [done |].
  unfold posted in *. cbn [extend log].
  destruct (key_configured (API_KEY E)); [done |].
  split; [apply app_nil_r | by apply Hk].
Qed.

Lemma extract_text_shape json v :
  extract_text json = Ok v ->
  is_error_payload v \/
  exists d c cs ct part parts,
    json = Ok (PDict d) /\
    assoc "candidates" d = Some (PList (PDict c :: cs)) /\
    assoc "content" c = Some (PDict ct) /\
    assoc "parts" ct = Some (PList (PDict part :: parts)) /\
    v = default PNone (assoc "text" part).
Proof.
  unfold extract_text, mbind, result_bind.
  destruct json as [body |]; [| done].
  destruct body as [| | | | | | d]; try done. cbn [py_get getitem].
  destruct (assoc "candidates" d) as [cands |] eqn:Hc; cbn [from_option id truthy].
  2: { intros ?; simplify_eq. left. eexists; reflexivity. }
  destruct (truthy cands) eqn:Ht.
  2: { intros ?; simplify_eq. left. eexists; reflexivity. }
  destruct cands as [| | | | s | l | d']; try done.
  - cbn [getitem0]. by destruct s.
  - destruct l as [| c0 cs]; [done |]. cbn [getitem0].
    destruct c0 as [| | | | | | c]; try done. cbn [getitem].
    destruct (assoc "content" c) as [ct0 |] eqn:Hct; [| done].
    destruct ct0 as [| | | | | | ct]; try done. cbn [getitem].
    destruct (assoc "parts" ct) as [ps |] eqn:Hp; [| done].
    destruct ps as [| | | | s | l | d']; try done.
    + cbn [getitem0]. by destruct s.
    + destruct l as [| part0 parts]; [done |]. cbn [getitem0].
      destruct part0 as [| | | | | | part]; try done. cbn [py_get].
      intros ?; simplify_eq. right. by exists d, c, cs, ct, part, parts.
Qed.

(** X2.  What [call_gemini_api] returns is an error dict of its own in
    every case but one: the service answered with status 200 and a JSON
    object whose [candidates] is a non-empty list, whose first candidate
    has a [content] object with a non-empty [parts] list, whose first part
    is an object.  The value returned is then the [text] of that part, or
    [None] when the part has none. *)
Theorem client_result_is_error_or_first_text :
  forall (E : env) (prompt model : string) (j : bool) (img : option string)
         (st st' : state) (v : pyval),
    call_gemini_api E prompt model j img st = (Ok v, st') ->
    is_error_payload v \/
    exists text d c cs ct part parts,
      session_post E (posts (log st)) (request_of E prompt model j img)
        = PostResponse 200 (Ok (PDict d)) text /\
      assoc "candidates" d = Some (PList (PDict c :: cs)) /\
      assoc "content" c = Some (PDict ct) /\
      assoc "parts" ct = Some (PList (PDict part :: parts)) /\
      v = default PNone (assoc "text" part).
Proof.
  intros E prompt model j img st st' v. unfold call_gemini_api.
  destruct (key_configured (API_KEY E)); cbn [negb].
  2: { intros [= <- _]. left. eexists; reflexivity. }
  unfold_monad. fold (request_of E prompt model j img).
  destruct (session_post E _ _) as [e | status json text].
  { intros [= <- _]. left. eexists; reflexivity. }
  destruct (status =? 200)%Z eqn:Hs.
  - apply Z.eqb_eq in Hs as ->.
    destruct (extract_text json) as [v' |] eqn:Hx.
    + intros [= <- _]. destruct (extract_text_shape _ _ Hx) as [He | Hshape]; [by left |].
      right. destruct Hshape as (d & c & cs & ct & part & parts & -> & H). by exists text, d, c, cs, ct, part, parts.
    + intros [= <- _]. left. eexists; reflexivity.
  - destruct text; intros [= <- _]; left; eexists; reflexivity.
Qed.

Lemma client_result_is_error_or_first_text_witness :
  is_error_payload (PStr "first part") \/
  exists text d c cs ct part parts,
    session_post Cases.rich (posts (log initial))
      (request_of Cases.rich "p" default_model false None)
      = PostResponse 200 (Ok (PDict d)) text /\
    assoc "candidates" d = Some (PList (PDict c :: cs)) /\
    assoc "content" c = Some (PDict ct) /\
    assoc "parts" ct = Some (PList (PDict part :: parts)) /\
    PStr "first part" = default PNone (assoc "text" part).
Proof.
  apply (client_result_is_error_or_first_text Cases.rich "p" default_model false None initial
           (call_gemini_api Cases.rich "p" default_model false None initial).2
           (PStr "first part")).
  vm_compute. reflexivity.
Defined.

(** X3.  With a key configured, when the service answers with status 200
    and a body of the shape above, the client returns the [text] of the
    first part of the first candidate ([None] if that part has none),
    whatever else the body holds: further candidates, further parts and
    other fields are not looked at. *)
Theorem client_returns_first_text :
  forall (E : env) (prompt model : string) (j : bool) (img : option string) (st : state)
         (text : result string) (d c ct part : list (string * pyval)) (cs parts : list pyval),
    key_configured (API_KEY E) = true ->
    session_post E (posts (log st)) (request_of E prompt model j img)
      = PostResponse 200 (Ok (PDict d)) text ->
    assoc "candidates" d = Some (PList (PDict c :: cs)) ->
    assoc "content" c = Some (PDict ct) ->
    assoc "parts" ct = Some (PList (PDict part :: parts)) ->
    (call_gemini_api E prompt model j img st).1 = Ok (default PNone (assoc "text" part)).
Proof.
  intros E prompt model j img st text d c ct part cs parts Hk Hpost Hc Hct Hp.
  unfold call_gemini_api. rewrite Hk. cbn [negb]. unfold_monad.
  fold (request_of E prompt model j img). rewrite Hpost. cbn [Z.eqb Pos.eqb].
  unfold extract_text, mbind, result_bind. cbn [py_get getitem].
  rewrite Hc. cbn [from_option id truthy getitem0 getitem].
  rewrite Hct. cbn [getitem]. rewrite Hp. reflexivity.
Qed.

Lemma client_returns_first_text_witness :
  (call_gemini_api Cases.rich "p" default_model false None initial).1 = Ok (PStr "first part").
Proof.
  apply (client_returns_first_text Cases.rich "p" default_model false None initial
           (Ok EmptyString)
           [("usageMetadata", PDict [("totalTokenCount", PInt 7%Z)]);
            ("candidates",
             PList [PDict [("content",
                            PDict [("role", PStr "model");
                                   ("parts", PList [PDict [("text", PStr "first part")];
                                                    PDict [("text", PStr "second part")]])]);
                           ("finishReason", PStr "STOP")];
                    PDict [("content",
                            PDict [("parts",
                                    PList [PDict [("text", PStr "other candidate")]])])]])]
           [("content",
             PDict [("role", PStr "model");
                    ("parts", PList [PDict [("text", PStr "first part")];
                                     PDict [("text", PStr "second part")]])]);
            ("finishReason", PStr "STOP")]
           [("role", PStr "model");
            ("parts", PList [PDict [("text", PStr "first part")];
                             PDict [("text", PStr "second part")]])]
           [("text", PStr "first part")]
           [PDict [("content",
                    PDict [("parts", PList [PDict [("text", PStr "other candidate")]])])]]
           [PDict [("text", PStr "second part")]]);
    reflexivity.
Defined.

(** ** The handler: edges *)

(** X4.  A request whose message is absent or empty is answered with the
    error dict for an empty message, at once: no prompt is built, nothing
    is posted and no session is touched, whatever the other fields. *)
Theorem empty_message_is_rejected :
  forall (E : env) (req : request) (st : state),
    message req = None \/ message req = Some EmptyString ->
    chat E req st = (Ok (PDict [("error", PStr "Message cannot be empty.")]), st).
Proof.
  intros E req st H. apply chat_empty. unfold message_of. by destruct H as [-> | ->].
Qed.

Lemma empty_message_is_rejected_witness :
  chat Scenario.patient Cases.silent initial
    = (Ok (PDict [("error", PStr "Message cannot be empty.")]), initial) /\
  chat Scenario.patient Cases.blank Scenario.after_five
    = (Ok (PDict [("error", PStr "Message cannot be empty.")]), Scenario.after_five).
Proof.
  split.
  - apply (empty_message_is_rejected Scenario.patient Cases.silent initial). by left.
  - apply (empty_message_is_rejected Scenario.patient Cases.blank Scenario.after_five). by right.
Defined.

(** X5.  When the gate's completion is valid JSON but not a JSON object (a
    list, a string, a number, true, false, null), the handler raises an
    [AttributeError] instead of replying: nothing beyond the gate call has
    happened and no session is touched. *)
Theorem gate_not_an_object_raises :
  forall (E : env) (req : request) (st st1 : state) (s : string) (g : pyval),
    message_of req <> EmptyString ->
    gate_call E (message_of req) st = (Ok (PStr s), st1) ->
    json_loads E s = Ok g ->
    (forall d, g <> PDict d) ->
    chat E req st = (Raise (AttributeError "get"), st1) /\
    chat_sessions st1 = chat_sessions st /\
    forall sid, appended sid (log st1) = appended sid (log st).
Proof.
  intros E req st st1 s g Hne Hg Hl Hd. split.
  - by apply (chat_gate_not_an_object E req st st1 s g).
  - destruct (gate_state _ _ _ _ _ Hg) as (-> & _). split; [done |].
    intros sid. cbn [extend log]. by rewrite appended_app, appended_prompt_posted, app_nil_r.
Qed.

Lemma gate_not_an_object_raises_witness :
  chat Cases.listing Scenario.headache initial
    = (Raise (AttributeError "get"), (gate_call Cases.listing "I have a headache" initial).2) /\
  chat_sessions (gate_call Cases.listing "I have a headache" initial).2 = chat_sessions initial /\
  forall sid, appended sid (log (gate_call Cases.listing "I have a headache" initial).2)
              = appended sid (log initial).
Proof.
  apply (gate_not_an_object_raises Cases.listing Scenario.headache initial
           (gate_call Cases.listing "I have a headache" initial).2
           "[true]" (PList [PBool true])).
  - discriminate.
  - vm_compute. reflexivity.
  - vm_compute. reflexivity.
  - discriminate.
Defined.

(** X6.  On the medical path with a language other than "en" and "en-US",
    when the translation call returns a value in which "error" cannot be
    looked for ([None] for a part without text, a number, a boolean), the
    handler raises instead of replying, and the exchange is already in the
    history of the session. *)
Theorem translation_not_searchable_raises :
  forall (E : env) (req : request) (st st1 : state) (s : string) (g im : pyval),
    message_of req <> EmptyString ->
    gate_call E (message_of req) st = (Ok (PStr s), st1) ->
    json_loads E s = Ok g ->
    py_get g "is_medical" = Ok im ->
    truthy im = true ->
    language_of req <> "en" ->
    language_of req <> "en-US" ->
    exists ai st2 st3,
      analysis_call E (message_of req) (session_of req) st1 = (Ok ai, st2) /\
      record_exchange (message_of req) (session_of req) ai st2 = (Ok tt, st3) /\
      forall t st4 e,
        translation_call E ai (language_of req) st3 = (Ok t, st4) ->
        py_in "error" t = Raise e ->
        chat E req st = (Raise e, st4) /\
        stored st4 (session_of req)
          = slice_last 10 (stored st (session_of req)
                           ++ [user_turn (message_of req); assistant_turn ai]).
Proof.
  intros E req st st1 s g im Hne Hg Hl Hget Him Hen Hus.
  destruct (chat_medical E req st st1 s g im Hne Hg Hl Hget Him)
    as (ai & st2 & st3 & Ha & Hr & Hs & Hc).
  exists ai, st2, st3. do 2 (split; [done |]).
  intros t st4 e Ht Hin.
  apply String.eqb_neq in Hen, Hus. rewrite Hen, Hus, Ht, Hin in Hc. split; [done |].
  destruct (translation_call_run E ai (language_of req) st3) as (t' & Ht').
  rewrite Ht in Ht'. injection Ht' as _ ->.
  unfold stored. cbn [extend chat_sessions]. by rewrite Hs, lookup_insert_eq.
Qed.

Lemma translation_not_searchable_raises_witness :
  exists ai st2 st3,
    analysis_call Cases.mute "I have a headache" "s1"
      (gate_call Cases.mute "I have a headache" initial).2 = (Ok ai, st2) /\
    record_exchange "I have a headache" "s1" ai st2 = (Ok tt, st3) /\
    forall t st4 e,
      translation_call Cases.mute ai "es" st3 = (Ok t, st4) ->
      py_in "error" t = Raise e ->
      chat Cases.mute Cases.headache_es initial = (Raise e, st4) /\
      stored st4 "s1"
        = slice_last 10 (stored initial "s1"
                         ++ [user_turn "I have a headache"; assistant_turn ai]).
Proof.
  apply (translation_not_searchable_raises Cases.mute Cases.headache_es initial
           (gate_call Cases.mute "I have a headache" initial).2
           Sample.medical (PDict [("is_medical", PBool true)]) (PBool true)).
  - discriminate.
  - vm_compute. reflexivity.
  - vm_compute. reflexivity.
  - reflexivity.
  - reflexivity.
  - discriminate.
  - discriminate.
Defined.

(** X7.  On the medical path the test for a failed translation is a
    search for "error" in what the translation call returned.  So a
    translation that is a text with the letters "error" in it is dropped
    like a failure: the reply is the untranslated analysis text. *)
Theorem translation_mentioning_error_is_dropped :
  forall (E : env) (req : request) (st st1 : state) (s : string) (g im : pyval),
    message_of req <> EmptyString ->
    gate_call E (message_of req) st = (Ok (PStr s), st1) ->
    json_loads E s = Ok g ->
    py_get g "is_medical" = Ok im ->
    truthy im = true ->
    language_of req <> "en" ->
    language_of req <> "en-US" ->
    exists ai st2 st3,
      analysis_call E (message_of req) (session_of req) st1 = (Ok ai, st2) /\
      record_exchange (message_of req) (session_of req) ai st2 = (Ok tt, st3) /\
      forall translated st4,
        translation_call E ai (language_of req) st3 = (Ok (PStr translated), st4) ->
        chat E req st =
          (Ok (reply (if str_contains "error" translated then ai else PStr translated)), st4).
Proof.
  intros E req st st1 s g im Hne Hg Hl Hget Him Hen Hus.
  destruct (chat_medical E req st st1 s g im Hne Hg Hl Hget Him)
    as (ai & st2 & st3 & Ha & Hr & _ & Hc).
  exists ai, st2, st3. do 2 (split; [done |]).
  intros translated st4 Ht.
  apply String.eqb_neq in Hen, Hus. rewrite Hen, Hus, Ht in Hc. cbn [negb andb py_in] in Hc.
  rewrite Hc. by destruct (str_contains "error" translated).
Qed.

Lemma translation_mentioning_error_is_dropped_witness :
  exists ai st2 st3,
    analysis_call Cases.worried "I have a headache" "s1"
      (gate_call Cases.worried "I have a headache" initial).2 = (Ok ai, st2) /\
    record_exchange "I have a headache" "s1" ai st2 = (Ok tt, st3) /\
    forall translated st4,
      translation_call Cases.worried ai "es" st3 = (Ok (PStr translated), st4) ->
      chat Cases.worried Cases.headache_es initial =
        (Ok (reply (if str_contains "error" translated then ai else PStr translated)), st4).
Proof.
  apply (translation_mentioning_error_is_dropped Cases.worried Cases.headache_es initial
           (gate_call Cases.worried "I have a headache" initial).2
           Sample.medical (PDict [("is_medical", PBool true)]) (PBool true)).
  - discriminate.
  - vm_compute. reflexivity.
  - vm_compute. reflexivity.
  - reflexivity.
  - reflexivity.
  - discriminate.
  - discriminate.
Defined.

Example worried_reply_is_not_translated :
  (chat Cases.worried Cases.headache_es initial).1 = Ok (reply (PStr "Please rest.")).
Proof. vm_compute. reflexivity. Qed.

(** ** The handler: sessions *)

Lemma serve_nil E st : (serve E [] st).2 = st.
Proof. done. Qed.

(** X8.  Requests served one after the other leave alone every session
    that none of them names: its entry in the session table is what it
    was, present or absent. *)
Theorem unnamed_sessions_are_untouched :
  forall (E : env) (rs : list request) (st : state) (sid : string),
    sid ∉ map session_of rs ->
    chat_sessions (serve E rs st).2 !! sid = chat_sessions st !! sid.
Proof.
  intros E rs. induction rs as [| r rs IH]; intros st sid Hsid; [done |].
  rewrite serve_cons. cbn [map] in Hsid. apply not_elem_of_cons in Hsid as [Hne Hsid].
  rewrite IH by done.
  destruct (chat_effect E r st) as [(-> & _) | (ai & -> & _)]; [done |].
  by rewrite lookup_insert_ne.
Qed.

Lemma unnamed_sessions_are_untouched_witness :
  chat_sessions (serve Cases.two_rounds [Cases.second_patient] Cases.after_first).2 !! "s1"
  = chat_sessions Cases.after_first !! "s1".
Proof.
  apply (unnamed_sessions_are_untouched Cases.two_rounds [Cases.second_patient]
           Cases.after_first "s1").
  cbn. rewrite list_elem_of_singleton. discriminate.
Defined.

(** X9.  The handler never removes a session: whatever requests are
    served, every session of the table is still in it afterwards. *)
Theorem sessions_are_never_removed :
  forall (E : env) (rs : list request) (st : state),
    dom (chat_sessions st) ⊆ dom (chat_sessions (serve E rs st).2).
Proof.
  intros E rs. induction rs as [| r rs IH]; intros st; [done |].
  rewrite serve_cons. etrans; [| apply IH].
  destruct (chat_effect E r st) as [(-> & _) | (ai & -> & _)]; [done |].
  rewrite dom_insert. set_solver.
Qed.

(** X10.  Only a request that the gate classified medical changes the
    session table: after any request the table is what it was, unless the
    gate's completion was a text that decoded to an object with a truthy
    [is_medical]. *)
Theorem only_medical_requests_change_sessions :
  forall (E : env) (req : request) (st : state),
    chat_sessions (chat E req st).2 = chat_sessions st \/
    exists s st1 g im,
      gate_call E (message_of req) st = (Ok (PStr s), st1) /\
      json_loads E s = Ok g /\
      py_get g "is_medical" = Ok im /\
      truthy im = true.
Proof.
  intros E req st.
  destruct (decide (message_of req = EmptyString)) as [He | Hne].
  { left. by rewrite chat_empty. }
  destruct (gate_call_run E (message_of req) st) as (v & Hg & _).
  rewrite (chat_from_gate _ _ _ _ _ Hne Hg).
  destruct v as [| | | | s | |]; try (by left).
  cbn [py_json_loads]. destruct (json_loads E s) as [g | []] eqn:Hl; try (by left).
  destruct (py_get g "is_medical") as [im |] eqn:Hget; [| by left].
  destruct (truthy im) eqn:Him; cbn [negb].
  - right. exists s. eexists. by exists g, im.
  - left. destruct (negb _); [| done].
    match goal with |- context [translation_call E ?x ?y ?z] =>
      destruct (translation_call_run E x y z) as (t & ->) end.
    done.
Qed.

(** ** The handler: what it sends upstream *)

#[local] Arguments posted : simpl never.

Lemma prompts_of_app a l1 l2 : prompts_of a (l1 ++ l2) = prompts_of a l1 ++ prompts_of a l2.
Proof. apply omap_app. Qed.

Lemma prompts_of_posted a E p m j i : prompts_of a (posted E p m j i) = [].
Proof. unfold posted. by destruct (key_configured _). Qed.

Lemma prompts_of_prompt a b p l :
  prompts_of a (EvPrompt b p :: l) = (if agent_eqb b a then [p] else []) ++ prompts_of a l.
Proof. cbn. by destruct (agent_eqb b a). Qed.

Lemma prompts_of_append a sid t l : prompts_of a (EvAppend sid t :: l) = prompts_of a l.
Proof. done. Qed.

Lemma prompts_of_nil a : prompts_of a [] = [].
Proof. done. Qed.

Lemma posts_prompt a p l : posts (EvPrompt a p :: l) = posts l.
Proof. done. Qed.

Lemma posts_append sid t l : posts (EvAppend sid t :: l) = posts l.
Proof. done. Qed.

Lemma posts_nil : posts [] = [].
Proof. done. Qed.

Lemma posts_posted_length E p m j i : length (posts (posted E p m j i)) <= 1.
Proof. unfold posted. destruct (key_configured _); cbn; lia. Qed.

Create Rewrite HintDb events.
#[local] Hint Rewrite posts_app posts_prompt posts_append posts_nil
  prompts_of_app prompts_of_prompt prompts_of_append prompts_of_nil prompts_of_posted
  @length_app : events.

(** What one request adds to the log: at most three posts, and no prompt
    of the conversation agent but the one built from the stored history. *)
Lemma chat_log E req st :
  exists l,
    log (chat E req st).2 = log st ++ l /\
    length (posts l) <= 3 /\
    (prompts_of SymptomAnalysis l = [] \/
     prompts_of SymptomAnalysis l
       = [SymptomAnalysisAgent.get_prompt E (message_of req) (stored st (session_of req))]).
Proof.
  destruct (decide (message_of req = EmptyString)) as [He | Hne].
  { exists []. rewrite chat_empty by done. rewrite app_nil_r.
    split; [done |]. split; [cbn; lia | by left]. }
  destruct (gate_call_run E (message_of req) st) as (v & Hg & _).
  rewrite (chat_from_gate _ _ _ _ _ Hne Hg).
  set (gp := MedicalGuardAgent.get_prompt (message_of req)).
  pose proof (posts_posted_length E gp default_model true None) as Hgp.
  assert (Hgate : exists l,
            log (extend st (EvPrompt MedicalGuard gp :: posted E gp default_model true None))
              = log st ++ l /\
            length (posts l) <= 3 /\
            (prompts_of SymptomAnalysis l = [] \/
             prompts_of SymptomAnalysis l
               = [SymptomAnalysisAgent.get_prompt E (message_of req)
                    (stored st (session_of req))])).
  { eexists. split; [reflexivity |]. autorewrite with events. cbn [agent_eqb app].
    split; [lia | by left]. }
  destruct (py_json_loads E v) as [g | []]; try exact Hgate.
  destruct (py_get g "is_medical") as [im |]; [| exact Hgate].
  destruct (negb (truthy im)).
  - destruct (negb (String.eqb (language_of req) "en")); [| exact Hgate].
    match goal with |- context [translation_call E ?x ?y ?z] =>
      destruct (translation_call_run E x y z) as (t & ->) end.
    match goal with |- context [posted E ?p default_model false None] =>
      pose proof (posts_posted_length E p default_model false None) end.
    eexists. split; [cbn [snd extend log]; rewrite <- app_assoc; reflexivity |].
    autorewrite with events. cbn [agent_eqb app].
    split; [lia | by left].
  - match goal with |- context [analysis_call E ?m ?s ?st1] =>
      destruct (analysis_call_run E m s st1) as (ai & ->) end.
    erewrite record_exchange_run; [| cbn [chat_sessions extend]; apply with_session_lookup].
    change (stored (extend st _) (session_of req)) with (stored st (session_of req)).
    set (ap := SymptomAnalysisAgent.get_prompt E (message_of req) _).
    pose proof (posts_posted_length E ap "gemini-2.5-pro" false None) as Hap.
    destruct (_ && _).
    + match goal with |- context [translation_call E ?x ?y ?z] =>
        destruct (translation_call_run E x y z) as (t & ->) end.
      match goal with |- context [posted E ?p default_model false None] =>
        pose proof (posts_posted_length E p default_model false None) end.
      eexists. split.
      * destruct (py_in "error" t); cbn [snd extend log]; rewrite <- !app_assoc; reflexivity.
      * autorewrite with events. cbn [agent_eqb app length]. split; [lia | by right].
    + eexists. split; [cbn [snd extend log]; rewrite <- !app_assoc; reflexivity |].
      autorewrite with events. cbn [agent_eqb app length]. split; [lia | by right].
Qed.

(** X11.  One request makes at most three calls to the completion
    service, whatever the service answers. *)
Theorem at_most_three_posts :
  forall (E : env) (req : request) (st : state),
    exists l,
      posts (log (chat E req st).2) = posts (log st) ++ l /\
      length l <= 3.
Proof.
  intros E req st. destruct (chat_log E req st) as (l & Hl & Hn & _).
  exists (posts l). by rewrite Hl, posts_app.
Qed.

(** The log of a request that the gate classified medical: the gate
    prompt and its post, the conversation prompt built from the stored
    history and its post, the two appends, and then what the translation
    step adds, which is nothing for "en" and "en-US". *)
Lemma chat_medical_log E req st st1 s g im :
  message_of req <> EmptyString ->
  gate_call E (message_of req) st = (Ok (PStr s), st1) ->
  json_loads E s = Ok g ->
  py_get g "is_medical" = Ok im ->
  truthy im = true ->
  exists ai st2 tail,
    let gate_prompt := MedicalGuardAgent.get_prompt (message_of req) in
    let analysis_prompt :=
      SymptomAnalysisAgent.get_prompt E (message_of req) (stored st (session_of req)) in
    analysis_call E (message_of req) (session_of req) st1 = (Ok ai, st2) /\
    log (chat E req st).2 =
      log st ++ [ EvPrompt MedicalGuard gate_prompt;
                  EvPost (request_of E gate_prompt default_model true None);
                  EvPrompt SymptomAnalysis analysis_prompt;
                  EvPost (request_of E analysis_prompt "gemini-2.5-pro" false None);
                  EvAppend (session_of req) (user_turn (message_of req));
                  EvAppend (session_of req) (assistant_turn ai) ] ++ tail /\
    (tail = [] \/
     exists tp, tail = [EvPrompt LanguageTranslation tp;
                        EvPost (request_of E tp default_model false None)]) /\
    (language_of req = "en" \/ language_of req = "en-US" ->
     tail = [] /\ (chat E req st).1 = Ok (reply ai)).
Proof.
  intros Hne Hg Hl Hget Him.
  destruct (chat_medical E req st st1 s g im Hne Hg Hl Hget Him)
    as (ai & st2 & st3 & Ha & Hr & _ & Hc).
  pose proof (gate_text_needs_key _ _ _ _ _ Hg) as Hk.
  destruct (gate_state _ _ _ _ _ Hg) as (-> & _).
  match type of Ha with analysis_call E ?m ?sid ?st1 = _ =>
    destruct (analysis_call_run E m sid st1) as (ai' & Ha') end.
  pose proof Ha as Ha0. rewrite Ha' in Ha0. injection Ha0 as -> <-.
  erewrite record_exchange_run in Hr; [| cbn [chat_sessions extend]; apply with_session_lookup].
  injection Hr as <-.
  change (stored (extend st _) (session_of req)) with (stored st (session_of req)) in *.
  exists ai. eexists.
  destruct (negb (String.eqb (language_of req) "en")
            && negb (String.eqb (language_of req) "en-US")) eqn:Hlang.
  - match type of Hc with context [translation_call E ?x ?y ?z] =>
      destruct (translation_call_run E x y z) as (t & Ht) end.
    rewrite Ht in Hc.
    exists [EvPrompt LanguageTranslation
              (LanguageTranslationAgent.get_prompt E ai (language_of req));
            EvPost (request_of E (LanguageTranslationAgent.get_prompt E ai (language_of req))
                      default_model false None)].
    cbn zeta. split; [exact Ha |]. split.
    { rewrite Hc. destruct (py_in "error" t); cbn [snd extend log]; unfold posted; rewrite Hk;
        rewrite <- !app_assoc; reflexivity. }
    split; [right; by eexists |].
    intros [Hen | Hus]; rewrite ?Hen, ?Hus in Hlang; done.
  - exists []. cbn zeta. split; [exact Ha |].
    rewrite Hc. cbn [fst snd log extend]. unfold posted. rewrite Hk.
    split; [by rewrite <- !app_assoc |]. split; [by left | done].
Qed.

(** X12.  In a run of requests served one after the other since the
    process started, a request that the gate classifies medical builds
    exactly one prompt for the conversation agent, from its message and
    from the history stored for its session before the request.  That
    history is the turns of the newest five, at most, of the (user,
    assistant) exchanges appended to the session so far; the two turns of
    the request itself are appended after the prompt is built and posted,
    and are not in it. *)
Theorem analysis_prompts_embed_stored_exchanges :
  forall (E : env) (rs : list request) (req : request) (st1 : state) (s : string)
         (g im : pyval),
    let st := (serve E rs initial).2 in
    message_of req <> EmptyString ->
    gate_call E (message_of req) st = (Ok (PStr s), st1) ->
    json_loads E s = Ok g ->
    py_get g "is_medical" = Ok im ->
    truthy im = true ->
    exists (xs : list (string * pyval)) (ai : pyval) (st2 : state) (tail : list event),
      let gate_prompt := MedicalGuardAgent.get_prompt (message_of req) in
      let analysis_prompt :=
        SymptomAnalysisAgent.get_prompt E (message_of req) (turns_of (slice_last 5 xs)) in
      appended (session_of req) (log st) = turns_of xs /\
      stored st (session_of req) = turns_of (slice_last 5 xs) /\
      analysis_call E (message_of req) (session_of req) st1 = (Ok ai, st2) /\
      log (chat E req st).2 =
        log st ++ [ EvPrompt MedicalGuard gate_prompt;
                    EvPost (request_of E gate_prompt default_model true None);
                    EvPrompt SymptomAnalysis analysis_prompt;
                    EvPost (request_of E analysis_prompt "gemini-2.5-pro" false None);
                    EvAppend (session_of req) (user_turn (message_of req));
                    EvAppend (session_of req) (assistant_turn ai) ] ++ tail /\
      prompts_of SymptomAnalysis tail = [].
Proof.
  intros E rs req st1 s g im st Hne Hg Hl Hget Him.
  destruct (serve_ok E rs initial initial_ok (session_of req)) as (Hst & xs & Hxs).
  fold st in Hst, Hxs.
  destruct (chat_medical_log E req st st1 s g im Hne Hg Hl Hget Him)
    as (ai & st2 & tail & Ha & Hlog & Htail & _).
  cbn zeta in Hlog.
  assert (Hstored : stored st (session_of req) = turns_of (slice_last 5 xs)).
  { by rewrite Hst, Hxs, slice_last_turns_of. }
  rewrite Hstored in Hlog.
  exists xs, ai, st2, tail. cbn zeta. do 4 (split; [done |]).
  by destruct Htail as [-> | (tp & ->)].
Qed.

Lemma analysis_prompts_embed_stored_exchanges_witness :
  exists (xs : list (string * pyval)) (ai : pyval) (st2 : state) (tail : list event),
    let st := (serve Cases.two_rounds [Cases.first_patient] initial).2 in
    let gate_prompt := MedicalGuardAgent.get_prompt "I have a headache" in
    let analysis_prompt :=
      SymptomAnalysisAgent.get_prompt Cases.two_rounds "I have a headache"
        (turns_of (slice_last 5 xs)) in
    appended "s1" (log st) = turns_of xs /\
    stored st "s1" = turns_of (slice_last 5 xs) /\
    analysis_call Cases.two_rounds "I have a headache" "s1"
      (gate_call Cases.two_rounds "I have a headache" st).2 = (Ok ai, st2) /\
    log (chat Cases.two_rounds Cases.first_patient st).2 =
      log st ++ [ EvPrompt MedicalGuard gate_prompt;
                  EvPost (request_of Cases.two_rounds gate_prompt default_model true None);
                  EvPrompt SymptomAnalysis analysis_prompt;
                  EvPost (request_of Cases.two_rounds analysis_prompt "gemini-2.5-pro"
                            false None);
                  EvAppend "s1" (user_turn "I have a headache");
                  EvAppend "s1" (assistant_turn ai) ] ++ tail /\
    prompts_of SymptomAnalysis tail = [].
Proof.
  apply (analysis_prompts_embed_stored_exchanges Cases.two_rounds [Cases.first_patient]
           Cases.first_patient
           (gate_call Cases.two_rounds "I have a headache"
              (serve Cases.two_rounds [Cases.first_patient] initial).2).2
           Sample.medical (PDict [("is_medical", PBool true)]) (PBool true)).
  - discriminate.
  - vm_compute. reflexivity.
  - vm_compute. reflexivity.
  - reflexivity.
  - reflexivity.
Defined.

Example second_prompt_embeds_first_exchange :
  prompts_of SymptomAnalysis
    (log (serve Cases.two_rounds [Cases.first_patient; Cases.first_patient] initial).2)
  = [ SymptomAnalysisAgent.get_prompt Cases.two_rounds "I have a headache" [];
      SymptomAnalysisAgent.get_prompt Cases.two_rounds "I have a headache"
        [user_turn "I have a headache"; assistant_turn (PStr "Answer 1")] ].
Proof. vm_compute. reflexivity. Qed.

(** X13.  On the medical path a request in "en" or "en-US" is answered
    with what the analysis call returned, and this is all that happens:
    the gate prompt is built and posted to the default model with JSON
    output asked for, the conversation prompt is built from the stored
    history and posted to the stronger model, the user turn and the turn
    holding what the analysis call returned are appended.  No translation
    prompt is built and nothing else is posted. *)
Theorem english_analysis_trace :
  forall (E : env) (req : request) (st st1 : state) (s : string) (g im : pyval),
    message_of req <> EmptyString ->
    gate_call E (message_of req) st = (Ok (PStr s), st1) ->
    json_loads E s = Ok g ->
    py_get g "is_medical" = Ok im ->
    truthy im = true ->
    language_of req = "en" \/ language_of req = "en-US" ->
    exists ai st2,
      let gate_prompt := MedicalGuardAgent.get_prompt (message_of req) in
      let analysis_prompt :=
        SymptomAnalysisAgent.get_prompt E (message_of req) (stored st (session_of req)) in
      analysis_call E (message_of req) (session_of req) st1 = (Ok ai, st2) /\
      (chat E req st).1 = Ok (reply ai) /\
      log (chat E req st).2 =
        log st ++ [ EvPrompt MedicalGuard gate_prompt;
                    EvPost (request_of E gate_prompt default_model true None);
                    EvPrompt SymptomAnalysis analysis_prompt;
                    EvPost (request_of E analysis_prompt "gemini-2.5-pro" false None);
                    EvAppend (session_of req) (user_turn (message_of req));
                    EvAppend (session_of req) (assistant_turn ai) ].
Proof.
  intros E req st st1 s g im Hne Hg Hl Hget Him Hlang.
  destruct (chat_medical_log E req st st1 s g im Hne Hg Hl Hget Him)
    as (ai & st2 & tail & Ha & Hlog & _ & Hen).
  destruct (Hen Hlang) as [-> Hreply]. rewrite app_nil_r in Hlog.
  by exists ai, st2.
Qed.

Lemma english_analysis_trace_witness :
  exists ai st2,
    let gate_prompt := MedicalGuardAgent.get_prompt "I have a headache" in
    let analysis_prompt :=
      SymptomAnalysisAgent.get_prompt Scenario.patient "I have a headache" (stored initial "s1") in
    analysis_call Scenario.patient "I have a headache" "s1"
      (gate_call Scenario.patient "I have a headache" initial).2 = (Ok ai, st2) /\
    (chat Scenario.patient Scenario.headache initial).1 = Ok (reply ai) /\
    log (chat Scenario.patient Scenario.headache initial).2 =
      log initial ++ [ EvPrompt MedicalGuard gate_prompt;
                       EvPost (request_of Scenario.patient gate_prompt default_model true None);
                       EvPrompt SymptomAnalysis analysis_prompt;
                       EvPost (request_of Scenario.patient analysis_prompt "gemini-2.5-pro"
                                 false None);
                       EvAppend "s1" (user_turn "I have a headache");
                       EvAppend "s1" (assistant_turn ai) ].
Proof.
  apply (english_analysis_trace Scenario.patient Scenario.headache initial
           (gate_call Scenario.patient "I have a headache" initial).2
           Sample.medical (PDict [("is_medical", PBool true)]) (PBool true)).
  - discriminate.
  - vm_compute. reflexivity.
  - vm_compute. reflexivity.
  - reflexivity.
  - reflexivity.
  - by left.
Defined.

Example english_analysis_reply_is_the_answer :
  (chat Scenario.patient Scenario.headache initial).1 = Ok (reply (PStr "Answer 1")).
Proof. vm_compute. reflexivity. Qed.

(** ** The video endpoint *)

Lemma loop_skip E data send frames st :
  Video.has_image data = false ->
  Video.loop E (Video.Received data send :: frames) st = Video.loop E frames st.
Proof. intros H. cbn [Video.loop]. unfold Video.has_image in H. by rewrite H. Qed.

(** One answered turn of the peer: the call is made, then the answer goes
    out or the sending fails. *)
Lemma loop_answer E data send frames st :
  Video.has_image data = true ->
  exists v,
    call_gemini_api E (VisualAnalysisAgent.get_prompt
                         (default Video.default_prompt (Video.prompt data)))
      "gemini-2.5-pro" false (Video.image data) st
      = (Ok v, extend st (posted E (VisualAnalysisAgent.get_prompt
                                      (default Video.default_prompt (Video.prompt data)))
                            "gemini-2.5-pro" false (Video.image data))) /\
    (key_configured (API_KEY E) = false -> v = error_payload missing_key_message) /\
    Video.loop E (Video.Received data send :: frames) st =
      match send with
      | Some x => (Ok ([], Video.LoopRaises x),
                   extend st (posted E (VisualAnalysisAgent.get_prompt
                                          (default Video.default_prompt (Video.prompt data)))
                                "gemini-2.5-pro" false (Video.image data)))
      | None =>
          match Video.loop E frames
                  (extend st (posted E (VisualAnalysisAgent.get_prompt
                                          (default Video.default_prompt (Video.prompt data)))
                                "gemini-2.5-pro" false (Video.image data))) with
          | (Ok rest, st') => (Ok (PDict [("analysis", v)] :: rest.1, rest.2), st')
          | (Raise e, st') => (Raise e, st')
          end
      end.
Proof.
  intros H.
  destruct (call_gemini_api_run E
              (VisualAnalysisAgent.get_prompt (default Video.default_prompt (Video.prompt data)))
              "gemini-2.5-pro" false (Video.image data) st) as (v & Hv & Hk).
  exists v. split; [done |]. split; [done |].
  cbn [Video.loop]. unfold Video.has_image in H. rewrite H. cbn [negb].
  unfold mbind at 1, M_bind at 1. rewrite Hv. destruct send; [done |].
  unfold mbind, M_bind, mret, M_ret. by destruct (Video.loop E frames _) as [[] ?].
Qed.

(** X14.  A message without an image, or with an empty one, is passed
    over in silence: taking these turns out of what the peer does changes
    nothing of what the loop sends, posts and ends with. *)
Theorem imageless_frames_are_skipped :
  forall (E : env) (frames : list Video.inbound) (st : state),
    Video.loop E frames st
    = Video.loop E (List.filter (fun i => negb (Video.skipped i)) frames) st.
Proof.
  intros E frames. induction frames as [| [data send | x] frames IH]; intros st; [done | | done].
  cbn [List.filter Video.skipped]. destruct (Video.has_image data) eqn:Hi; cbn [negb].
  - destruct (loop_answer E data send frames st Hi) as (v & Hv & _ & ->).
    destruct (loop_answer E data send
                (List.filter (fun i => negb (Video.skipped i)) frames) st Hi)
      as (v' & Hv' & _ & ->).
    rewrite Hv in Hv'. injection Hv' as <-.
    destruct send; [done |]. by rewrite <- IH.
  - rewrite loop_skip by done. apply IH.
Qed.

Lemma posts_map_post reqs : posts (map EvPost reqs) = reqs.
Proof. induction reqs as [| r reqs IH]; [done |]. cbn. by f_equal. Qed.

Lemma posted_requests E p m j i :
  posted E p m j i = map EvPost (if key_configured (API_KEY E)
                                 then [request_of E p m j i] else []).
Proof. unfold posted. by destruct (key_configured _). Qed.

(** What the loop does, whatever the peer and the service do: it does not
    raise, it only posts, every message it sends is an analysis, and every
    message sent stands for one call of the client. *)
Lemma loop_run E frames st :
  exists sent ex reqs,
    Video.loop E frames st = (Ok (sent, ex), extend st (map EvPost reqs)) /\
    Forall (fun m => exists v, m = PDict [("analysis", v)]) sent /\
    (if key_configured (API_KEY E)
     then length sent <= length reqs <= length sent + 1
     else reqs = [] /\
          Forall (fun m => m = PDict [("analysis", error_payload missing_key_message)]) sent).
Proof.
  revert st. induction frames as [| [data send | x] frames IH]; intros st.
  - exists [], Video.Blocked, []. cbn. rewrite extend_nil. split; [done |]. split; [done |].
    destruct (key_configured _); [cbn; lia | done].
  - destruct (Video.has_image data) eqn:Hi.
    + destruct (loop_answer E data send frames st Hi) as (v & _ & Hk & ->).
      rewrite posted_requests.
      destruct send as [x |].
      * eexists [], (Video.LoopRaises x), _. split; [reflexivity |]. split; [done |].
        destruct (key_configured _); [cbn; lia | done].
      * destruct (IH (extend st (map EvPost
                   (if key_configured (API_KEY E)
                    then [Video.request_for E data] else []))))
          as (sent & ex & reqs & Hl & Hs & Hn).
        unfold Video.request_for in Hl. rewrite Hl. cbn [fst snd].
        eexists _, ex, _. split; [by rewrite extend_extend, <- map_app |].
        split; [constructor; [by eexists | done] |].
        destruct (key_configured (API_KEY E)).
        -- rewrite length_app. cbn. lia.
        -- destruct Hn as [-> Hn]. split; [done |]. constructor; [| done]. by rewrite Hk.
    + rewrite loop_skip by done. apply IH.
  - exists [], (Video.LoopRaises x), []. cbn. rewrite extend_nil. split; [done |]. split; [done |].
    destruct (key_configured _); [cbn; lia | done].
Qed.

(** X15.  The video endpoint never touches the chat sessions: whatever
    the peer and the completion service do, the session table is what it
    was, and all the endpoint added to the log are posts to the completion
    service, so that no chat prompt was built and no turn appended. *)
Theorem video_leaves_sessions_alone :
  forall (E : env) (p : Video.peer) (st : state),
    exists out reqs st',
      Video.websocket_video_endpoint E p st = (Ok out, st') /\
      chat_sessions st' = chat_sessions st /\
      log st' = log st ++ map EvPost reqs /\
      (forall sid, appended sid (log st') = appended sid (log st)).
Proof.
  intros E p st. unfold Video.websocket_video_endpoint.
  destruct (Video.accept p) as [x |].
  { exists ([], Video.Propagated x), [], st. cbn. by rewrite app_nil_r. }
  destruct (loop_run E (Video.turns p) st) as (sent & ex & reqs & Hl & _ & _).
  unfold mbind, M_bind. rewrite Hl. cbn [fst snd].
  assert (Happ : forall sid, appended sid (log st ++ map EvPost reqs) = appended sid (log st)).
  { intros sid. rewrite appended_app.
    replace (appended sid (map EvPost reqs)) with (@nil turn); [apply app_nil_r |].
    clear. induction reqs; [done |]. done. }
  destruct ex as [| [| e]]; [| | destruct (Video.close p)];
    eexists _, reqs, _; (split; [reflexivity |]); done.
Qed.

(** X16.  With a key configured, every message the video loop sends
    stands for one post to the completion service, and at most one post
    is left without a message: the one whose answer could not be sent. *)
Theorem video_answers_and_posts :
  forall (E : env) (frames : list Video.inbound) (st : state),
    key_configured (API_KEY E) = true ->
    exists sent ex st' reqs,
      Video.loop E frames st = (Ok (sent, ex), st') /\
      posts (log st') = posts (log st) ++ reqs /\
      length sent <= length reqs <= length sent + 1 /\
      Forall (fun m => exists v, m = PDict [("analysis", v)]) sent.
Proof.
  intros E frames st Hk.
  destruct (loop_run E frames st) as (sent & ex & reqs & Hl & Hs & Hn).
  rewrite Hk in Hn. exists sent, ex. eexists _, reqs. split; [exact Hl |].
  cbn [extend log]. by rewrite posts_app, posts_map_post.
Qed.

Lemma video_answers_and_posts_witness :
  exists sent ex st' reqs,
    Video.loop Cases.describer (Video.turns Cases.viewer) initial = (Ok (sent, ex), st') /\
    posts (log st') = posts (log initial) ++ reqs /\
    length sent <= length reqs <= length sent + 1 /\
    Forall (fun m => exists v, m = PDict [("analysis", v)]) sent.
Proof.
  apply (video_answers_and_posts Cases.describer (Video.turns Cases.viewer) initial).
  reflexivity.
Defined.

Lemma video_state_nil E st : video_state E st [] = st.
Proof. unfold video_state. destruct (key_configured _); cbn; apply extend_nil. Qed.

Lemma video_state_cons E st d ds :
  video_state E
    (extend st (posted E (VisualAnalysisAgent.get_prompt
                            (default Video.default_prompt (Video.prompt d)))
                  "gemini-2.5-pro" false (Video.image d))) ds
  = video_state E st (d :: ds).
Proof.
  unfold video_state. rewrite posted_requests, extend_extend, <- map_app.
  unfold Video.request_for. by destruct (key_configured _).
Qed.

(** A peer that stays connected and takes every answer: the loop calls
    the client once for each message with an image, in the order of the
    messages, and the i-th message it sends holds what the i-th call
    returned. *)
Lemma loop_answers_each_image E datas st :
  exists sent,
    Video.loop E (map (fun d => Video.Received d None) datas) st
      = (Ok (sent, Video.Blocked), video_state E st (List.filter Video.has_image datas)) /\
    length sent = length (List.filter Video.has_image datas) /\
    forall i d,
      List.filter Video.has_image datas !! i = Some d ->
      exists v,
        video_analysis E (video_state E st (take i (List.filter Video.has_image datas))) d
          = Ok v /\
        sent !! i = Some (PDict [("analysis", v)]).
Proof.
  revert st. induction datas as [| d datas IH]; intros st.
  - exists []. cbn [map List.filter Video.loop]. rewrite video_state_nil.
    split; [done |]. split; [done |]. intros i d Hd. by rewrite lookup_nil in Hd.
  - cbn [map List.filter]. destruct (Video.has_image d) eqn:Hi.
    + destruct (loop_answer E d None (map (fun d => Video.Received d None) datas) st Hi)
        as (v & Hv & _ & ->).
      match goal with |- context [Video.loop E _ ?st1] =>
        destruct (IH st1) as (sent & -> & Hlen & Hnth) end.
      exists (PDict [("analysis", v)] :: sent). cbn [fst snd].
      split; [by rewrite video_state_cons |]. split; [cbn; by rewrite Hlen |].
      intros [| i] d' Hd'.
      * cbn in Hd'. injection Hd' as <-. exists v. cbn [take].
        rewrite video_state_nil. unfold video_analysis. by rewrite Hv.
      * cbn in Hd'. destruct (Hnth i d' Hd') as (v' & Hv' & Hs').
        exists v'. cbn [take]. by rewrite <- video_state_cons.
    + rewrite loop_skip by done. apply IH.
Qed.

(** X17.  Without a key the video loop still answers every image.  For a
    peer that stays connected and takes every answer, the messages sent
    are one missing-key error dict of the client under [analysis] for each
    message with an image, and nothing else; whatever the peer does, every
    message sent is that dict and nothing is posted to the completion
    service. *)
Theorem video_without_key :
  forall (E : env) (st : state),
    key_configured (API_KEY E) = false ->
    (forall datas : list Video.frame,
       Video.loop E (map (fun d => Video.Received d None) datas) st
       = (Ok (replicate (length (List.filter Video.has_image datas)) missing_key_analysis,
              Video.Blocked), st)) /\
    (forall frames : list Video.inbound,
       exists sent ex,
         Video.loop E frames st = (Ok (sent, ex), st) /\
         Forall (fun m => m = missing_key_analysis) sent).
Proof.
  intros E st Hk. split.
  - intros datas.
    destruct (loop_answers_each_image E datas st) as (sent & -> & Hlen & Hnth).
    unfold video_state. rewrite Hk. cbn [map]. rewrite extend_nil.
    do 2 f_equal. f_equal. apply list_eq. intros i.
    destruct (List.filter Video.has_image datas !! i) as [d |] eqn:Hd.
    + destruct (Hnth i d Hd) as (v & Hv & ->).
      rewrite lookup_replicate_2 by (by apply lookup_lt_Some in Hd).
      unfold video_analysis in Hv.
      match type of Hv with (call_gemini_api E ?p ?m ?j ?img ?s).1 = _ =>
        destruct (call_gemini_api_run E p m j img s) as (v0 & Hv0 & Hmiss) end.
      rewrite Hv0 in Hv. cbn in Hv. injection Hv as <-. by rewrite (Hmiss Hk).
    + apply lookup_ge_None in Hd.
      rewrite (proj2 (lookup_ge_None _ _)) by lia.
      symmetry. apply lookup_ge_None. rewrite length_replicate. lia.
  - intros frames.
    destruct (loop_run E frames st) as (sent & ex & reqs & Hl & _ & Hn).
    rewrite Hk in Hn. destruct Hn as [-> Hn]. cbn in Hl. rewrite extend_nil in Hl.
    by exists sent, ex.
Qed.

Lemma video_without_key_witness :
  (forall datas : list Video.frame,
     Video.loop Scenario.keyless (map (fun d => Video.Received d None) datas) initial
     = (Ok (replicate (length (List.filter Video.has_image datas)) missing_key_analysis,
            Video.Blocked), initial)) /\
  (forall frames : list Video.inbound,
     exists sent ex,
       Video.loop Scenario.keyless frames initial = (Ok (sent, ex), initial) /\
       Forall (fun m => m = missing_key_analysis) sent).
Proof.
  apply (video_without_key Scenario.keyless initial). reflexivity.
Defined.

Example viewer_gets_two_answers :
  (Video.websocket_video_endpoint Cases.describer Cases.viewer initial).1
  = Ok ([PDict [("analysis", PStr "You look calm.")]; PDict [("analysis", PStr "A red patch.")]],
        Video.Serving).
Proof. vm_compute. reflexivity. Qed.

Example keyless_viewer_gets_error_dicts :
  (Video.websocket_video_endpoint Scenario.keyless Cases.viewer initial).1
  = Ok ([PDict [("analysis", error_payload missing_key_message)];
         PDict [("analysis", error_payload missing_key_message)]],
        Video.Serving).
Proof. vm_compute. reflexivity. Qed.

(** X18.  While the peer stays connected and every answer can be sent,
    the video loop answers exactly the messages that carry an image, one
    message each and in their order: the i-th message sent holds, under
    [analysis], what the client returned when called with the visual
    prompt and the image of the i-th message with an image, after the
    calls for the earlier ones.  With a key configured it has then posted
    exactly one request for each of these messages, in the same order, to
    the stronger model, with the image attached and the prompt of the
    message (or the default prompt) in the visual template. *)
Theorem video_one_answer_per_image :
  forall (E : env) (datas : list Video.frame) (st : state),
    let images := List.filter Video.has_image datas in
    exists sent st',
      Video.loop E (map (fun d => Video.Received d None) datas) st
        = (Ok (sent, Video.Blocked), st') /\
      length sent = length images /\
      (forall i d,
         images !! i = Some d ->
         exists v,
           video_analysis E (video_state E st (take i images)) d = Ok v /\
           sent !! i = Some (PDict [("analysis", v)])) /\
      (key_configured (API_KEY E) = true ->
       posts (log st') = posts (log st) ++ map (Video.request_for E) images).
Proof.
  intros E datas st images.
  destruct (loop_answers_each_image E datas st) as (sent & Hl & Hlen & Hnth).
  exists sent. eexists. split; [exact Hl |]. split; [done |]. split; [done |].
  intros Hk. unfold video_state. rewrite Hk. cbn [extend log].
  by rewrite posts_app, posts_map_post.
Qed.

Lemma video_one_answer_per_image_witness :
  let images := List.filter Video.has_image
                  [Cases.no_image; Cases.snapshot; Cases.empty_image; Cases.rash] in
  exists sent st',
    Video.loop Cases.describer
      (map (fun d => Video.Received d None)
           [Cases.no_image; Cases.snapshot; Cases.empty_image; Cases.rash]) initial
      = (Ok (sent, Video.Blocked), st') /\
    length sent = length images /\
    (forall i d,
       images !! i = Some d ->
       exists v,
         video_analysis Cases.describer (video_state Cases.describer initial (take i images)) d
           = Ok v /\
         sent !! i = Some (PDict [("analysis", v)])) /\
    (key_configured (API_KEY Cases.describer) = true ->
     posts (log st') = posts (log initial) ++ map (Video.request_for Cases.describer) images).
Proof.
  apply (video_one_answer_per_image Cases.describer
           [Cases.no_image; Cases.snapshot; Cases.empty_image; Cases.rash] initial).
Defined.

Example second_image_is_answered_second :
  video_analysis Cases.describer (video_state Cases.describer initial [Cases.snapshot]) Cases.rash
  = Ok (PStr "A red patch.").
Proof. vm_compute. reflexivity. Qed.

Lemma loop_step E data send frames st v st1 :
  Video.has_image data = true ->
  call_gemini_api E (VisualAnalysisAgent.get_prompt
                       (default Video.default_prompt (Video.prompt data)))
    "gemini-2.5-pro" false (Video.image data) st = (Ok v, st1) ->
  Video.loop E (Video.Received data send :: frames) st =
    match send with
    | Some x => (Ok ([], Video.LoopRaises x), st1)
    | None =>
        match Video.loop E frames st1 with
        | (Ok rest, st') => (Ok (PDict [("analysis", v)] :: rest.1, rest.2), st')
        | (Raise e, st') => (Raise e, st')
        end
    end.
Proof.
  intros H Hv. cbn [Video.loop]. unfold Video.has_image in H. rewrite H. cbn [negb].
  unfold mbind at 1, M_bind at 1. rewrite Hv. destruct send; [done |].
  unfold mbind, M_bind, mret, M_ret. by destruct (Video.loop E frames _) as [[] ?].
Qed.

(** X19.  The video loop goes through the turns of the peer one after the
    other.  If it is still waiting after some turns, what it does on more
    turns is what it does on these from the state it reached, its messages
    coming after those already sent; if an exception has ended it, later
    turns change nothing. *)
Theorem video_loop_continues :
  forall (E : env) (frames more : list Video.inbound) (st st' : state)
         (sent : list pyval) (ex : Video.loop_exit),
    Video.loop E frames st = (Ok (sent, ex), st') ->
    Video.loop E (frames ++ more) st =
      match ex with
      | Video.Blocked =>
          match Video.loop E more st' with
          | (Ok rest, st'') => (Ok (sent ++ rest.1, rest.2), st'')
          | (Raise e, st'') => (Raise e, st'')
          end
      | Video.LoopRaises x => (Ok (sent, Video.LoopRaises x), st')
      end.
Proof.
  intros E frames more. induction frames as [| [data send | x] frames IH];
    intros st st' sent ex Hl.
  - cbn in Hl. injection Hl as <- <- <-. cbn [app].
    by destruct (Video.loop E more st) as [[[] |] ?].
  - destruct (Video.has_image data) eqn:Hi.
    + destruct (call_gemini_api_run E
                  (VisualAnalysisAgent.get_prompt
                     (default Video.default_prompt (Video.prompt data)))
                  "gemini-2.5-pro" false (Video.image data) st) as (v & Hv & _).
      cbn [app]. rewrite (loop_step _ _ _ _ _ _ _ Hi Hv).
      rewrite (loop_step _ _ _ _ _ _ _ Hi Hv) in Hl.
      destruct send as [x |]; [by injection Hl as <- <- <- |].
      match type of Hl with context [Video.loop E frames ?s] =>
        destruct (Video.loop E frames s) as [[[sent0 ex0] |] st0] eqn:Hr0; [| done] end.
      cbn [fst snd] in Hl. injection Hl as <- <- <-.
      rewrite (IH _ _ _ _ Hr0). destruct ex0; [| done].
      by destruct (Video.loop E more st0) as [[[] |] ?].
    + cbn [app]. rewrite loop_skip in * by done. by apply IH.
  - cbn in Hl. by injection Hl as <- <- <-.
Qed.

Lemma video_loop_continues_witness :
  Video.loop Cases.describer
    ([Video.Received Cases.no_image None; Video.Received Cases.snapshot None]
     ++ [Video.Received Cases.empty_image None; Video.Received Cases.rash None]) initial =
  match Video.loop Cases.describer
          [Video.Received Cases.empty_image None; Video.Received Cases.rash None]
          (Video.loop Cases.describer
             [Video.Received Cases.no_image None; Video.Received Cases.snapshot None]
             initial).2 with
  | (Ok rest, st'') => (Ok ([PDict [("analysis", PStr "You look calm.")]] ++ rest.1, rest.2), st'')
  | (Raise e, st'') => (Raise e, st'')
  end.
Proof.
  apply (video_loop_continues Cases.describer
           [Video.Received Cases.no_image None; Video.Received Cases.snapshot None]
           [Video.Received Cases.empty_image None; Video.Received Cases.rash None]
           initial
           (Video.loop Cases.describer
              [Video.Received Cases.no_image None; Video.Received Cases.snapshot None]
              initial).2
           [PDict [("analysis", PStr "You look calm.")]] Video.Blocked).
  vm_compute. reflexivity.
Defined.

(** ** The prompt templates *)

Lemma append_cons c (a b : string) : String c a +:+ b = String c (a +:+ b).
Proof. reflexivity. Qed.

Lemma append_length (a b : string) : String.length (a +:+ b) = String.length a + String.length b.
Proof. induction a as [| c a IH]; [done |]. rewrite append_cons. cbn [String.length]. by rewrite IH. Qed.

Lemma append_inj_r (s a b : string) : a +:+ s = b +:+ s -> a = b.
Proof.
  revert b. induction a as [| c a IH]; intros [| c' b] H.
  - done.
  - apply (f_equal String.length) in H. rewrite !append_length in H.
    cbn [String.length] in H. lia.
  - apply (f_equal String.length) in H. rewrite !append_length in H.
    cbn [String.length] in H. lia.
  - rewrite !append_cons in H. injection H as -> H. f_equal. by apply IH.
Qed.

Ltac peel H :=
  repeat match type of H with
         | String _ _ = String _ _ => injection H as H
         end.

Ltac refold_appends H q q' :=
  match type of H with
  | _ (_ q ?d) ?r = _ => change ((q +:+ d) +:+ r = (q' +:+ d) +:+ r) in H
  end.

(** X20.  The gate template and the visual template keep their argument
    apart: two queries that give the same prompt are the same query. *)
Theorem single_argument_prompts_are_injective :
  (forall q q', MedicalGuardAgent.get_prompt q = MedicalGuardAgent.get_prompt q' -> q = q') /\
  (forall q q', VisualAnalysisAgent.get_prompt q = VisualAnalysisAgent.get_prompt q' -> q = q').
Proof.
  split; intros q q' H.
  - cbv [MedicalGuardAgent.get_prompt unlines String.concat String.append nl dq] in H.
    peel H. refold_appends H q q'. by do 2 apply append_inj_r in H.
  - cbv [VisualAnalysisAgent.get_prompt unlines String.concat String.append nl dq] in H.
    peel H. refold_appends H q q'. by do 2 apply append_inj_r in H.
Qed.

Lemma single_argument_prompts_are_injective_witness :
  "I have a headache" = "I have a headache" /\ "Is this a rash?" = "Is this a rash?".
Proof.
  split.
  - apply (proj1 single_argument_prompts_are_injective). reflexivity.
  - apply (proj2 single_argument_prompts_are_injective). reflexivity.
Defined.

(** ** How the video endpoint ends *)

Lemma loop_exit_cause E frames st sent x st' :
  Video.loop E frames st = (Ok (sent, Video.LoopRaises x), st') ->
  exists i, i ∈ frames /\ raised_by x i.
Proof.
  revert st sent. induction frames as [| [data send | y] frames IH]; intros st sent Hl.
  - done.
  - destruct (Video.has_image data) eqn:Hi.
    + destruct (call_gemini_api_run E
                  (VisualAnalysisAgent.get_prompt
                     (default Video.default_prompt (Video.prompt data)))
                  "gemini-2.5-pro" false (Video.image data) st) as (v & Hv & _).
      rewrite (loop_step _ _ _ _ _ _ _ Hi Hv) in Hl.
      destruct send as [y |].
      * injection Hl as <- <- <-. eexists. split; [apply list_elem_of_here |].
        right. by exists data.
      * match type of Hl with context [Video.loop E frames ?s] =>
          destruct (Video.loop E frames s) as [[[sent0 ex0] |] st0] eqn:Hr0; [| done] end.
        cbn [fst snd] in Hl. injection Hl as <- -> <-.
        destruct (IH _ _ Hr0) as (i & Hin & Hi').
        exists i. split; [by apply list_elem_of_further | done].
    + rewrite loop_skip in Hl by done. destruct (IH _ _ Hl) as (i & Hin & Hi').
      exists i. split; [by apply list_elem_of_further | done].
  - cbn in Hl. injection Hl as <- <- <-. eexists. split; [apply list_elem_of_here |]. by left.
Qed.

(** X21.  The video endpoint closes the socket itself in one case only:
    receiving, or sending the answer to an image, raised an exception
    other than a disconnect.  It then closes with code 1011 and a reason
    that carries the text of the exception.  After a disconnect it returns
    without closing; an exception leaves the handler only when [accept]
    or [close] raised it. *)
Theorem video_endpoint_outcome :
  forall (E : env) (p : Video.peer) (st st' : state) (sent : list pyval) (out : Video.outcome),
    Video.websocket_video_endpoint E p st = (Ok (sent, out), st') ->
    match out with
    | Video.Serving => Video.accept p = None
    | Video.Disconnected =>
        exists i, i ∈ Video.turns p /\ raised_by Video.WebSocketDisconnect i
    | Video.Closed code reason =>
        code = 1011%Z /\ Video.close p = None /\
        exists e, reason = "An internal error occurred: " +:+ exc_str E e /\
                  exists i, i ∈ Video.turns p /\ raised_by (Video.WsException e) i
    | Video.Propagated x => Video.accept p = Some x \/ Video.close p = Some x
    end.
Proof.
  intros E p st st' sent out. unfold Video.websocket_video_endpoint.
  destruct (Video.accept p) as [x |] eqn:Ha.
  { intros [= <- <- <-]. by left. }
  destruct (loop_run E (Video.turns p) st) as (sent0 & ex & reqs & Hl & _ & _).
  unfold mbind, M_bind. rewrite Hl. cbn [fst snd].
  destruct ex as [| [| e]].
  - by intros [= <- <- <-].
  - intros [= <- <- <-]. by apply (loop_exit_cause _ _ _ _ _ _ Hl).
  - destruct (Video.close p) as [x |] eqn:Hc.
    + intros [= <- <- <-]. by right.
    + intros [= <- <- <-]. split; [done |]. split; [done |].
      exists e. split; [done |]. by apply (loop_exit_cause _ _ _ _ _ _ Hl).
Qed.

Lemma video_endpoint_outcome_witness :
  1011%Z = 1011%Z /\ Video.close Cases.garbler = None /\
  exists e, "An internal error occurred: Expecting value"
            = "An internal error occurred: " +:+ exc_str Cases.describer e /\
            exists i, i ∈ Video.turns Cases.garbler /\ raised_by (Video.WsException e) i.
Proof.
  apply (video_endpoint_outcome Cases.describer Cases.garbler initial
           (Video.websocket_video_endpoint Cases.describer Cases.garbler initial).2
           [PDict [("analysis", PStr "You look calm.")]]
           (Video.Closed 1011 "An internal error occurred: Expecting value")).
  vm_compute. reflexivity.
Defined.
